(** * Food advisor: the catalog service (backend/app.py) and the
      plan-generation service (backend/main_app.py)

    The development has four parts.  The first embeds the two Python
    modules: [Py] holds the fragment of the Python runtime they rely on
    (binary64 floats, JSON values, exceptions, string helpers and a small
    monad for handlers that log events), [App] embeds [backend/app.py] and
    [MainApp] embeds [backend/main_app.py].  The second part defines the
    words the properties are stated in and the concrete stores and requests
    the examples run on.  The third part proves the properties of the
    specification, the fourth further properties of the two services. *)

From Stdlib Require Import ZArith List String Ascii Bool Lia.
From Stdlib Require Import QArith Qround Qpower Permutation.
From Stdlib Require Import SpecFloat.
Import ListNotations.

Local Open Scope Z_scope.
Local Open Scope string_scope.

(* ================================================================== *)
(** * Part I: the model *)
(* ================================================================== *)

Module Py.

(** ** Floats

    A Python [float] is an IEEE-754 binary64 number.  It is modelled by the
    standard library's [spec_float] at precision 53 and maximal exponent
    1024; the operations round to nearest, ties to even, as CPython's do. *)

Definition float := spec_float.
Definition prec : Z := 53.
Definition emax : Z := 1024.

Definition fadd : float -> float -> float := SFadd prec emax.
Definition fsub : float -> float -> float := SFsub prec emax.
Definition fmul : float -> float -> float := SFmul prec emax.
Definition fleb : float -> float -> bool := SFleb.
Definition fltb : float -> float -> bool := SFltb.

(** The float nearest to [m * 2^e]; [float_of_Z z] is what the interpreter
    uses for an [int] operand of a mixed arithmetic expression. *)
Definition float_of_dyadic (m e : Z) : float := binary_normalize prec emax m e false.
Definition float_of_Z (z : Z) : float := float_of_dyadic z 0.

Definition is_finite (x : float) : bool :=
  match x with
  | S754_zero _ | S754_finite _ _ _ => true
  | S754_infinity _ | S754_nan => false
  end.

(** ** Exceptions and outcomes *)

Inductive pyexc : Type :=
| TypeError (msg : string)
| ValueError (msg : string)
| AttributeError (msg : string)
| OverflowError (msg : string)
| KeyError (msg : string)
| IndexError (msg : string)
| JSONDecodeError
| OperationalError                 (* the database driver's failure *)
| TransportError                   (* httpx: no response (timeout, connection) *)
| HTTPStatusError (status_code : Z). (* httpx: raise_for_status *)

(** [str(e)], as an f-string renders the exception.  The two modules only
    format exceptions of the interpreter; the text of a library's exception
    is never used and is left empty. *)
Definition exc_str (e : pyexc) : string :=
  match e with
  | TypeError m | ValueError m | AttributeError m | OverflowError m
  | KeyError m | IndexError m => m
  | JSONDecodeError | OperationalError | TransportError | HTTPStatusError _ => ""
  end.

(** How a piece of handler code ends: with a value, with an HTTP error
    raised on purpose ([abort(status, msg)] in Flask,
    [raise HTTPException(status, detail)] in FastAPI), or with any other
    exception, which nothing in the two modules catches. *)
Inductive outcome (A : Type) : Type :=
| Return (a : A)
| HTTPError (status : Z) (detail : string)
| Raise (e : pyexc).
Arguments Return {A} a.
Arguments HTTPError {A} status detail.
Arguments Raise {A} e.

Definition obind {A B} (o : outcome A) (k : A -> outcome B) : outcome B :=
  match o with
  | Return a => k a
  | HTTPError s d => HTTPError s d
  | Raise e => Raise e
  end.

(** ** Handlers that log events

    A handler threads the log of the effects it performed (sessions opened
    and closed, calls to a collaborator).  An error stops the handler and
    keeps the log written so far. *)

Definition M (E A : Type) : Type := list E -> outcome A * list E.

Definition ret {E A} (a : A) : M E A := fun log => (Return a, log).

Definition bind {E A B} (m : M E A) (k : A -> M E B) : M E B :=
  fun log =>
    match m log with
    | (Return a, log') => k a log'
    | (HTTPError s d, log') => (HTTPError s d, log')
    | (Raise e, log') => (Raise e, log')
    end.

Definition emit {E} (ev : E) : M E unit := fun log => (Return tt, (log ++ [ev])%list).

Definition lift {E A} (o : outcome A) : M E A := fun log => (o, log).

(** [try: body finally: cleanup]: the cleanup runs however the body ends. *)
Definition finally {E A} (body : M E A) (cleanup : M E unit) : M E A :=
  fun log =>
    let '(o, log') := body log in
    match cleanup log' with
    | (Return _, log'') => (o, log'')
    | (HTTPError s d, log'') => (HTTPError s d, log'')
    | (Raise e, log'') => (Raise e, log'')
    end.

Notation "x <- m ;; k" := (bind m (fun x => k))
  (at level 61, m at next level, right associativity).
Notation "m ;;; k" := (bind m (fun _ => k))
  (at level 61, right associativity).

(** ** JSON values as Python sees them *)

#[warnings="-register-all"]
Inductive pyval : Type :=
| PNone
| PBool (b : bool)
| PInt (z : Z)
| PFloat (f : float)
| PStr (s : string)
| PList (l : list pyval)
| PDict (d : list (string * pyval)).

Definition type_name (v : pyval) : string :=
  match v with
  | PNone => "NoneType"
  | PBool _ => "bool"
  | PInt _ => "int"
  | PFloat _ => "float"
  | PStr _ => "str"
  | PList _ => "list"
  | PDict _ => "dict"
  end.

(** Truth value of an object in a condition. *)
Definition truthy (v : pyval) : bool :=
  match v with
  | PNone => false
  | PBool b => b
  | PInt z => negb (z =? 0)%Z
  | PFloat f => match f with S754_zero _ => false | _ => true end
  | PStr s => negb (String.eqb s "")
  | PList l => match l with [] => false | _ => true end
  | PDict d => match d with [] => false | _ => true end
  end.

Fixpoint assoc (k : string) (d : list (string * pyval)) : option pyval :=
  match d with
  | [] => None
  | (k', v) :: d' => if String.eqb k k' then Some v else assoc k d'
  end.

Definition no_attribute {A} (v : pyval) (attr : string) : outcome A :=
  Raise (AttributeError ("'" ++ type_name v ++ "' object has no attribute '" ++ attr ++ "'")).

(** [obj.get(key)]: [None] for an absent key; only a dict has [get]. *)
Definition get (obj : pyval) (key : string) : outcome pyval :=
  match obj with
  | PDict d => Return (match assoc key d with Some v => v | None => PNone end)
  | _ => no_attribute obj "get"
  end.

Definition not_subscriptable {A} (v : pyval) : outcome A :=
  Raise (TypeError ("'" ++ type_name v ++ "' object is not subscriptable")).

(** [obj[0]] (of a [str], the first byte stands for the first character:
    the caller only subscripts the result, which fails for any [str]). *)
Definition getitem_0 (obj : pyval) : outcome pyval :=
  match obj with
  | PList (v :: _) => Return v
  | PList [] => Raise (IndexError "list index out of range")
  | PStr (String c _) => Return (PStr (String c EmptyString))
  | PStr EmptyString => Raise (IndexError "string index out of range")
  | PDict _ => Raise (KeyError "0")
  | _ => not_subscriptable obj
  end.

(** [obj[key]] for a string key *)
Definition getitem_str (obj : pyval) (key : string) : outcome pyval :=
  match obj with
  | PDict d =>
      match assoc key d with
      | Some v => Return v
      | None => Raise (KeyError ("'" ++ key ++ "'"))
      end
  | PList _ => Raise (TypeError "list indices must be integers or slices, not str")
  | PStr _ => Raise (TypeError "string indices must be integers, not 'str'")
  | _ => not_subscriptable obj
  end.

(** ** Conversions *)

(** [float(v)].  Parsing a [str] is the interpreter's own work: its result
    ([inl] the text of the [ValueError], [inr] the float) is the parameter
    [float_of_str]. *)
Definition to_float (float_of_str : string -> string + float) (v : pyval) : outcome float :=
  match v with
  | PBool b => Return (float_of_Z (if b then 1 else 0))
  | PInt z =>
      let f := float_of_Z z in
      if is_finite f then Return f
      else Raise (OverflowError "int too large to convert to float")
  | PFloat f => Return f
  | PStr s =>
      match float_of_str s with
      | inl msg => Raise (ValueError msg)
      | inr f => Return f
      end
  | PNone | PList _ | PDict _ =>
      Raise (TypeError ("float() argument must be a string or a real number, not '"
                        ++ type_name v ++ "'"))
  end.

(** [int(x)] of a float: truncation toward zero. *)
Definition int_of_float (x : float) : outcome Z :=
  match x with
  | S754_nan => Raise (ValueError "cannot convert float NaN to integer")
  | S754_infinity _ => Raise (OverflowError "cannot convert float infinity to integer")
  | S754_zero _ => Return 0
  | S754_finite s m e => Return (cond_Zopp s (Z.shiftl (Zpos m) e))
  end.

(** ** Strings *)

Definition newline : string := String (ascii_of_nat 10) EmptyString.

Definition lower_ascii (c : ascii) : ascii :=
  let n := nat_of_ascii c in
  if (65 <=? n)%nat && (n <=? 90)%nat then ascii_of_nat (n + 32) else c.

(** [s.lower()].  Strings are held as their UTF-8 bytes and only the ASCII
    letters are mapped: the service only compares the result with the words
    ["gain"] and ["lose"], and no string with a character outside ASCII
    lowers to one of them. *)
Fixpoint lower (s : string) : string :=
  match s with
  | EmptyString => EmptyString
  | String c s' => String (lower_ascii c) (lower s')
  end.

(** [v.lower()] *)
Definition str_lower (v : pyval) : outcome string :=
  match v with
  | PStr s => Return (lower s)
  | _ => no_attribute v "lower"
  end.

(** [s.startswith(p)] *)
Definition startswith (s p : string) : bool := String.prefix p s.

(** [s[n:]] *)
Fixpoint drop (n : nat) (s : string) : string :=
  match n, s with
  | O, _ => s
  | S n', String _ s' => drop n' s'
  | S _, EmptyString => EmptyString
  end.

(** White space as [str.isspace] has it, on the UTF-8 bytes of a string:
    U+0009..U+000D, U+001C..U+0020 in one byte; U+0085 and U+00A0 in two;
    U+1680, U+2000..U+200A, U+2028, U+2029, U+202F, U+205F and U+3000 in
    three. *)
Definition isspace1 (a : ascii) : bool :=
  let a := nat_of_ascii a in
  ((9 <=? a)%nat && (a <=? 13)%nat) || ((28 <=? a)%nat && (a <=? 32)%nat).

Definition isspace2 (a b : ascii) : bool :=
  let a := nat_of_ascii a in
  let b := nat_of_ascii b in
  (a =? 194)%nat && ((b =? 133)%nat || (b =? 160)%nat).

Definition isspace3 (a b c : ascii) : bool :=
  let a := nat_of_ascii a in
  let b := nat_of_ascii b in
  let c := nat_of_ascii c in
  ((a =? 225)%nat && (b =? 154)%nat && (c =? 128)%nat)
  || ((a =? 226)%nat && (b =? 128)%nat
      && (((128 <=? c)%nat && (c <=? 138)%nat)
          || (c =? 168)%nat || (c =? 169)%nat || (c =? 175)%nat))
  || ((a =? 226)%nat && (b =? 129)%nat && (c =? 159)%nat)
  || ((a =? 227)%nat && (b =? 128)%nat && (c =? 128)%nat).

(** Drops the white space a list of bytes starts with; [rev] tells that
    the bytes are in reverse order (the end of a string, read backwards). *)
Fixpoint lstrip_bytes (rev : bool) (s : list ascii) : list ascii :=
  match s with
  | a :: s1 =>
      if isspace1 a then lstrip_bytes rev s1 else
      match s1 with
      | b :: s2 =>
          if (if rev then isspace2 b a else isspace2 a b) then lstrip_bytes rev s2 else
          match s2 with
          | c :: s3 =>
              if (if rev then isspace3 c b a else isspace3 a b c)
              then lstrip_bytes rev s3 else s
          | [] => s
          end
      | [] => s
      end
  | [] => []
  end.

(** [s.strip()] *)
Definition strip (s : string) : string :=
  let s := lstrip_bytes false (list_ascii_of_string s) in
  string_of_list_ascii (List.rev (lstrip_bytes true (List.rev s))).

(** [sep.join(parts)] *)
Fixpoint join (sep : string) (parts : list string) : string :=
  match parts with
  | [] => ""
  | [p] => p
  | p :: rest => p ++ sep ++ join sep rest
  end.

Definition digit (d : Z) : string :=
  String (ascii_of_nat (48 + Z.to_nat d)) EmptyString.

Fixpoint digits (fuel : nat) (n : Z) : string :=
  match fuel with
  | O => ""
  | S fuel' => if (n <? 10)%Z then digit n else digits fuel' (n / 10) ++ digit (n mod 10)
  end.

(** [str(n)] of an [int]. *)
Definition str_of_Z (n : Z) : string :=
  let a := Z.abs n in
  (if (n <? 0)%Z then "-" else "") ++ digits (S (Z.to_nat (Z.log2 a))) a.

(** [str(x)] of an optional text column: [None] prints as the word. *)
Definition str_of_opt (o : option string) : string :=
  match o with
  | Some s => s
  | None => "None"
  end.

End Py.

(* ------------------------------------------------------------------ *)
(** ** backend/app.py: the catalog service *)
(* ------------------------------------------------------------------ *)

Module App.
Import Py.

Declare Scope pyfloat_scope.
Delimit Scope pyfloat_scope with F.
Infix "+" := fadd : pyfloat_scope.
Infix "-" := fsub : pyfloat_scope.
Infix "*" := fmul : pyfloat_scope.

(** *** The tables

    A nullable column is an [option]; the relational store is an ideal one:
    rows come back in the order of the list, a comparison with NULL selects
    nothing, floats compare as binary64 and integers are unbounded. *)

Module Restaurant.
Record t : Type := mk {
  id : Z;
  name : string;
  address : option string;
  phone : option string
}.
End Restaurant.

Module MenuItem.
Record t : Type := mk {
  id : Z;
  restaurant_id : option Z;
  name : string;
  calories : option Z;
  protein_g : option float;
  carbs_g : option float;
  fats_g : option float;
  price_usd : option float
}.
End MenuItem.

Record Database : Type := {
  restaurants : list Restaurant.t;
  menu_items : list MenuItem.t
}.

(** One element of the JSON array [/recommend] answers with. *)
Module ItemJson.
Record t : Type := mk {
  name : string;
  calories : option Z;
  protein_g : option float;
  carbs_g : option float;
  fats_g : option float;
  price_usd : option float;
  restaurant_id : option Z;
  restaurant_name : string
}.
End ItemJson.

(** What the handlers do to the session factory. *)
Inductive event : Type := SessionOpen | SessionClose.

(** What the service takes from outside the module: the interpreter's
    parsing of a [str] into a float, and the store's comparison of the
    integer column [restaurant_id] with a bound parameter that is not an
    [int] ([None] when the store refuses the parameter). *)
Record Runtime : Type := {
  float_of_str : string -> string + float;
  sql_eq_param : pyval -> option (Z -> bool)
}.

(** *** compute_target_calories *)

Definition compute_target_calories (weight_kg : float) (goal : string) : outcome Z :=
  let RMR := (float_of_Z 10 * weight_kg + float_of_dyadic 25 (-2) * float_of_Z 175
              - float_of_Z (5 * 30) + float_of_Z 5)%F in
  let delta := if String.eqb goal "gain" then 500 else -500 in
  int_of_float (RMR + float_of_Z delta)%F.

(** *** GET /restaurants *)

Definition get_restaurants (db : Database) : M event (list Restaurant.t) :=
  emit SessionOpen ;;;
  let restaurants := restaurants db in
  let data :=
    map (fun r => Restaurant.mk (Restaurant.id r) (Restaurant.name r)
                                (Restaurant.address r) (Restaurant.phone r))
        restaurants in
  emit SessionClose ;;;
  ret data.

(** *** POST /recommend *)

(** The body of the [try] block: the five fields, read in order. *)
Definition read_payload (rt : Runtime) (payload : pyval)
  : outcome (float * float * float * string * pyval) :=
  obind (obind (get payload "tall_cm") (to_float (float_of_str rt))) (fun tall_cm =>
  obind (obind (get payload "weight_kg") (to_float (float_of_str rt))) (fun weight_kg =>
  obind (obind (get payload "budget_usd") (to_float (float_of_str rt))) (fun budget_usd =>
  obind (obind (get payload "goal") str_lower) (fun goal =>
  obind (get payload "restaurant_id") (fun restaurant_id =>
  Return (tall_cm, weight_kg, budget_usd, goal, restaurant_id)))))).

(** [MenuItem.restaurant_id == restaurant_id] as a test on the column. *)
Definition restaurant_id_eq (rt : Runtime) (restaurant_id : pyval) : option (Z -> bool) :=
  match restaurant_id with
  | PInt n => Some (fun c => (c =? n)%Z)
  | v => sql_eq_param rt v
  end.

Definition on_column {A} (test : A -> bool) (col : option A) : bool :=
  match col with
  | Some c => test c
  | None => false
  end.

(** The second [filter]: price within budget and calories in the bracket. *)
Definition in_bracket (budget_usd : float) (target_cal : Z) (i : MenuItem.t) : bool :=
  on_column (fun p => fleb p budget_usd) (MenuItem.price_usd i)
  && on_column (fun c => (c <=? target_cal + 200)%Z) (MenuItem.calories i)
  && on_column (fun c => (c >=? target_cal - 200)%Z) (MenuItem.calories i).

(** [i.restaurant]: the row the foreign key points at, if any. *)
Definition restaurant_of (db : Database) (i : MenuItem.t) : option Restaurant.t :=
  match MenuItem.restaurant_id i with
  | Some rid => find (fun r => (Restaurant.id r =? rid)%Z) (restaurants db)
  | None => None
  end.

(** The list comprehension that builds [res]. *)
Fixpoint render (db : Database) (items : list MenuItem.t) : outcome (list ItemJson.t) :=
  match items with
  | [] => Return []
  | i :: rest =>
      match restaurant_of db i with
      | None => no_attribute PNone "name"
      | Some r =>
          obind (render db rest) (fun res =>
          Return (ItemJson.mk (MenuItem.name i) (MenuItem.calories i)
                    (MenuItem.protein_g i) (MenuItem.carbs_g i) (MenuItem.fats_g i)
                    (MenuItem.price_usd i) (MenuItem.restaurant_id i)
                    (Restaurant.name r) :: res))
      end
  end.

(** [q.limit(n)]: at most the first [n] rows. *)
Definition limit {A} (n : nat) (q : list A) : list A := firstn n q.

(** [q.limit(10).all()] for the query the handler builds. *)
Definition run_query (rt : Runtime) (db : Database)
    (restaurant_id : pyval) (budget_usd : float) (target_cal : Z)
  : outcome (list MenuItem.t) :=
  let q := menu_items db in
  obind (if truthy restaurant_id
         then match restaurant_id_eq rt restaurant_id with
              | Some test => Return (filter (fun i => on_column test (MenuItem.restaurant_id i)) q)
              | None => Raise OperationalError
              end
         else Return q) (fun q =>
  let q := filter (in_bracket budget_usd target_cal) q in
  Return (limit 10 q)).

Definition recommend (rt : Runtime) (db : Database) (payload : pyval)
  : M event (list ItemJson.t) :=
  if negb (truthy payload) then lift (HTTPError 400 "Missing JSON payload") else
  match read_payload rt payload with
  | Raise e => lift (HTTPError 400 ("Invalid payload: " ++ exc_str e))
  | HTTPError s d => lift (HTTPError s d)
  | Return (tall_cm, weight_kg, budget_usd, goal, restaurant_id) =>
      if negb (String.eqb goal "gain" || String.eqb goal "lose")
      then lift (HTTPError 400 "Goal must be 'gain' or 'lose'") else
      target_cal <- lift (compute_target_calories weight_kg goal) ;;
      emit SessionOpen ;;;
      items <- lift (run_query rt db restaurant_id budget_usd target_cal) ;;
      res <- lift (render db items) ;;
      emit SessionClose ;;;
      ret res
  end.

End App.

(* ------------------------------------------------------------------ *)
(** ** backend/main_app.py: the plan-generation service *)
(* ------------------------------------------------------------------ *)

Module MainApp.
Import Py.

(** *** Input models (validated by the framework before the handler runs) *)

Inductive Goal : Type := lose_weight | gain_weight.

Record UserProfile : Type := {
  height_cm : Z;
  weight_kg : float;
  daily_budget_egp : float;
  goal : Goal
}.

Record RecommendationRequest : Type := { profile : UserProfile }.

(** *** The tables the query reads, and its rows *)

Record restaurant_row : Type := { r_id : Z; r_name : option string }.

Record menu_item_row : Type := {
  m_restaurant_id : option Z;
  m_item_en : option string;
  m_item_ar : option string;
  m_price_egp : option float
}.

Record Connection : Type := {
  restaurant : list restaurant_row;
  menu_item : list menu_item_row
}.

(** An element of the list [fetch_affordable_items] returns. *)
Module Item.
Record t : Type := mk {
  restaurant : option string;
  en : option string;
  ar : option string;
  price : float
}.
End Item.

(** The answer of the inference endpoint to one POST. *)
Inductive hf_reply : Type :=
| NoReply                                        (* the client raised *)
| Reply (status_code : Z) (json : option pyval). (* [None]: body is not JSON *)

Inductive event : Type :=
| Connect
| Close
| HFPost (prompt : string).

(** What the service takes from outside the module: the database the
    driver connects to ([None] when connecting fails), the order
    [ORDER BY random()] puts the selected rows in, the interpreter's
    rendering of a float by [str] and by the format [.2f], and the
    inference endpoint. *)
Record World : Type := {
  connect : option Connection;
  random_order : list Item.t -> list Item.t;
  random_order_perm : forall rows, Permutation (random_order rows) rows;
  float_str : float -> string;
  float_2f : float -> string;
  hf_post : string -> hf_reply
}.

Record Response : Type := { email_body : string }.

(** *** get_db *)

Definition get_db {A} (w : World) (handler : Connection -> M event A) : M event A :=
  match connect w with
  | None => lift (Raise OperationalError)
  | Some conn =>
      emit Connect ;;;
      finally (handler conn) (emit Close)
  end.

(** *** fetch_affordable_items *)

(** [m.price_egp <= %s] as the store (PostgreSQL, through [psycopg2])
    evaluates it: NaN is equal to itself and above every other value, and
    the other values compare as binary64 floats. *)
Definition pg_le (x y : float) : bool :=
  match x, y with
  | _, S754_nan => true
  | S754_nan, _ => false
  | _, _ => fleb x y
  end.

(** [menu_item m JOIN restaurant r ON m.restaurant_id = r.id
     WHERE m.price_egp <= budget], projected on the four columns. *)
Definition affordable_rows (conn : Connection) (budget : float) : list Item.t :=
  flat_map (fun m =>
    flat_map (fun r =>
      match m_restaurant_id m, m_price_egp m with
      | Some rid, Some p =>
          if (rid =? r_id r)%Z && pg_le p budget
          then [Item.mk (r_name r) (m_item_en m) (m_item_ar m) p]
          else []
      | _, _ => []
      end) (restaurant conn)) (menu_item conn).

Definition fetch_affordable_items (w : World) (conn : Connection) (budget : float)
  : list Item.t :=
  let rows := firstn 30 (random_order w (affordable_rows conn budget)) in
  map (fun row => Item.mk (Item.restaurant row) (Item.en row) (Item.ar row) (Item.price row))
      rows.

(** *** build_prompt

    The three units of the profile line follow a narrow no-break space
    (U+202F, the bytes E2 80 AF), as in the source. *)

Definition build_prompt (w : World) (profile : UserProfile) (items : list Item.t) : string :=
  let profile_line :=
    "Height: " ++ str_of_Z (height_cm profile) ++ " cm, Weight: "
    ++ float_str w (weight_kg profile) ++ " kg, "
    ++ "Budget: " ++ float_str w (daily_budget_egp profile) ++ " EGP per day, "
    ++ "Goal: " ++ (match goal profile with
                    | lose_weight => "lose weight"
                    | gain_weight => "gain weight"
                    end) ++ "." in
  let table :=
    List.app
      ["| Restaurant | Item (EN) | Item (AR) | Price (EGP) |";
       "|------------|-----------|-----------|------------|"]
      (map (fun it =>
          "| " ++ str_of_opt (Item.restaurant it) ++ " | " ++ str_of_opt (Item.en it)
          ++ " | " ++ str_of_opt (Item.ar it) ++ " | " ++ float_2f w (Item.price it) ++ " |")
        items) in
  let menu_table := join newline table in
  let instruction :=
    "Using the table above, propose a full‑day meal plan (breakfast, lunch, dinner, up to two snacks) "
    ++ "that fits the budget and the user’s goal. For each dish list restaurant, English & Arabic name, price, "
    ++ "and a short nutrition note (e.g., high‑protein, low‑carb). End with the total daily cost and a friendly motivational closing." in
  profile_line ++ newline ++ newline ++ menu_table ++ newline ++ newline ++ instruction.

(** *** call_hf *)

(** [resp.raise_for_status()] raises unless the status is a 2xx. *)
Definition is_success (status_code : Z) : bool :=
  (200 <=? status_code)%Z && (status_code <=? 299)%Z.

Definition call_hf (w : World) (prompt : string) : M event pyval :=
  emit (HFPost prompt) ;;;
  match hf_post w prompt with
  | NoReply => lift (Raise TransportError)
  | Reply status_code json =>
      if (status_code =? 429)%Z
      then lift (HTTPError 429 "HF free‑tier token quota exceeded")
      else if negb (is_success status_code)
      then lift (Raise (HTTPStatusError status_code))
      else match json with
           | None => lift (Raise JSONDecodeError)
           | Some body =>
               lift (obind (getitem_0 body) (fun first =>
                     getitem_str first "generated_text"))
           end
  end.

(** *** POST /recommend *)

Definition recommend (w : World) (req : RecommendationRequest) (db : Connection)
  : M event Response :=
  let items := fetch_affordable_items w db (daily_budget_egp (profile req)) in
  if match items with [] => true | _ => false end
  then lift (HTTPError 404 "No menu items within budget") else
  let prompt := build_prompt w (profile req) items in
  llm_answer <- call_hf w prompt ;;
  match llm_answer with
  | PStr llm_answer =>
      let llm_answer :=
        if startswith llm_answer prompt
        then strip (drop (String.length prompt) llm_answer)
        else llm_answer in
      ret {| email_body := llm_answer |}
  | v => lift (no_attribute v "startswith")
  end.

(** The endpoint as the framework runs it: [db] is [Depends(get_db)]. *)
Definition recommend_endpoint (w : World) (req : RecommendationRequest) : M event Response :=
  get_db w (recommend w req).

End MainApp.

(* ================================================================== *)
(** * Part II: the vocabulary of the properties, and examples *)
(* ================================================================== *)

Module FloatSpec.
Import Py.

(** The rational a finite float denotes (0 for the infinities and NaN,
    which [is_finite] excludes wherever the value is used). *)
Definition float_value (x : float) : Q :=
  match x with
  | S754_finite s m e => (inject_Z (cond_Zopp s (Zpos m)) * Qpower 2 e)%Q
  | _ => 0%Q
  end.

(** [above k m e]: the positive number [m * 2^e] is at least [2^k]. *)
Definition above (k m e : Z) : Prop :=
  0 < m /\ (e <= k -> 2 ^ (k - e) <= m).

(** A float that is at least [2^k], plus infinity included. *)
Definition ge_pow2 (k : Z) (x : float) : Prop :=
  match x with
  | S754_finite false m e => above k (Zpos m) e
  | S754_infinity false => True
  | _ => False
  end.

(** A float that is zero, positive or plus infinity. *)
Definition nonneg (x : float) : Prop :=
  match x with
  | S754_zero _ | S754_finite false _ _ | S754_infinity false => True
  | _ => False
  end.

End FloatSpec.

Module StringSpec.
Import Py.

(** A run of white-space characters, as UTF-8 bytes. *)
Inductive blank : list ascii -> Prop :=
| blank_nil : blank []
| blank_1 a l : isspace1 a = true -> blank l -> blank (a :: l)
| blank_2 a b l : isspace2 a b = true -> blank l -> blank (a :: b :: l)
| blank_3 a b c l : isspace3 a b c = true -> blank l -> blank (a :: b :: c :: l).

(** The bytes begin with a white-space character. *)
Definition begins_blank (l : list ascii) : bool :=
  match l with
  | a :: l1 =>
      isspace1 a
      || match l1 with
         | b :: l2 =>
             isspace2 a b
             || match l2 with
                | c :: _ => isspace3 a b c
                | [] => false
                end
         | [] => false
         end
  | [] => false
  end.

(** The bytes end with a white-space character. *)
Definition ends_blank (l : list ascii) : bool :=
  match List.rev l with
  | a :: l1 =>
      isspace1 a
      || match l1 with
         | b :: l2 =>
             isspace2 b a
             || match l2 with
                | c :: _ => isspace3 c b a
                | [] => false
                end
         | [] => false
         end
  | [] => false
  end.

(** [body] is [s] without the white space [s] begins and ends with. *)
Definition stripped (s body : string) : Prop :=
  exists pre post,
    list_ascii_of_string s = (pre ++ list_ascii_of_string body ++ post)%list
    /\ blank pre /\ blank post
    /\ begins_blank (list_ascii_of_string body) = false
    /\ ends_blank (list_ascii_of_string body) = false.

(** The white space [lstrip_bytes] drops, in the order of the string. *)
Definition in_order (rev : bool) (l : list ascii) : list ascii :=
  if rev then List.rev l else l.

(** The test [lstrip_bytes] stops at. *)
Definition stops (rev : bool) (l : list ascii) : bool :=
  match l with
  | a :: l1 =>
      isspace1 a
      || match l1 with
         | b :: l2 =>
             (if rev then isspace2 b a else isspace2 a b)
             || match l2 with
                | c :: _ => if rev then isspace3 c b a else isspace3 a b c
                | [] => false
                end
         | [] => false
         end
  | [] => false
  end.

End StringSpec.

Module AppSpec.
Import Py App FloatSpec.

(** The value of the local variable [RMR] of [compute_target_calories]. *)
Definition RMR (weight_kg : float) : float :=
  (float_of_Z 10 * weight_kg + float_of_dyadic 25 (-2) * float_of_Z 175
   - float_of_Z (5 * 30) + float_of_Z 5)%F.

(** Replaces a closed float expression by its value. *)
Ltac eval_const c := let v := eval vm_compute in c in change c with v.

(** Adding the integer [delta] to [x] gives a finite float and incurs no
    rounding. *)
Definition exact_offset (x : float) (delta : Z) : Prop :=
  is_finite (x + float_of_Z delta)%F = true
  /\ (float_value (x + float_of_Z delta)%F == float_value x + inject_Z delta)%Q.

(** The float nearest to [k / 10]: the weight a request writes with one
    decimal. *)
Definition deci (k : Z) : float := SFdiv prec emax (float_of_Z k) (float_of_Z 10).

(** The two targets are computed and differ by 1000. *)
Definition differ_by_1000 (weight_kg : float) : bool :=
  match compute_target_calories weight_kg "gain",
        compute_target_calories weight_kg "lose" with
  | Return gain, Return lose => (gain - lose =? 1000)%Z
  | _, _ => false
  end.

(** [differ_by_1000] at the [n] weights [k/10], [(k+1)/10], ... *)
Fixpoint differ_by_1000_from (n : nat) (k : Z) : bool :=
  match n with
  | O => true
  | S n' => differ_by_1000 (deci k) && differ_by_1000_from n' (k + 1)
  end.

(** An element of the answer carries the columns of the row it renders. *)
Definition renders (i : MenuItem.t) (j : ItemJson.t) : Prop :=
  ItemJson.calories j = MenuItem.calories i
  /\ ItemJson.price_usd j = MenuItem.price_usd i
  /\ ItemJson.restaurant_id j = MenuItem.restaurant_id i.

(** [sub in s] *)
Fixpoint contains (sub s : string) : bool :=
  if String.prefix sub s then true
  else match s with
       | EmptyString => false
       | String _ s' => contains sub s'
       end.

(** [msg] names the field [field], whatever the case of the letters. *)
Definition mentions (field msg : string) : bool := contains (lower field) (lower msg).

(** [d.get(key)] on the payload's dict. *)
Definition field (d : list (string * pyval)) (key : string) : pyval :=
  match assoc key d with Some v => v | None => PNone end.

(** A value [float()] accepts. *)
Definition numeric (rt : Runtime) (v : pyval) : bool :=
  match to_float (float_of_str rt) v with Return _ => true | _ => false end.

(** A string that lowers to one of the two goals. *)
Definition in_enum (v : pyval) : bool :=
  match v with
  | PStr s => String.eqb (lower s) "gain" || String.eqb (lower s) "lose"
  | _ => false
  end.

(** No required field is missing, non-numeric or out of the enum. *)
Definition fields_valid (rt : Runtime) (d : list (string * pyval)) : bool :=
  numeric rt (field d "tall_cm") && numeric rt (field d "weight_kg")
  && numeric rt (field d "budget_usd") && in_enum (field d "goal").

(** Sessions opened and not yet closed. *)
Fixpoint open_sessions (log : list event) : Z :=
  match log with
  | [] => 0
  | SessionOpen :: log' => open_sessions log' + 1
  | SessionClose :: log' => open_sessions log' - 1
  end.

(** *** A concrete runtime, store and requests *)

(** A runtime for requests whose numbers are JSON numbers: no string is
    parsed as a float and the store refuses an id that is not an integer. *)
Definition strict_runtime : Runtime := {|
  float_of_str := fun s => inl ("could not convert string to float: '" ++ s ++ "'");
  sql_eq_param := fun _ => None
|}.

(** 65.12499999999997, that is [0x1.047fffffffffep+6]. *)
Definition weight_65_125_minus : float := S754_finite false 0x1047FFFFFFFFFE (-46).

Definition salad : MenuItem.t :=
  MenuItem.mk 1 (Some 1) "Salad" (Some 1100) None None None (Some (float_of_Z 9)).

Definition salad_json : ItemJson.t :=
  ItemJson.mk "Salad" (Some 1100) None None None (Some (float_of_Z 9)) (Some 1) "Green Bowl".

Definition wrap : MenuItem.t :=
  MenuItem.mk 3 (Some 2) "Wrap" (Some 1250) None None None (Some (float_of_Z 11)).

(** A row whose restaurant is gone. *)
Definition orphan : MenuItem.t :=
  MenuItem.mk 2 None "Soup" (Some 1200) None None None (Some (float_of_Z 5)).

Definition one_restaurant : list Restaurant.t := [Restaurant.mk 1 "Green Bowl" None None].

Definition two_restaurants : list Restaurant.t :=
  [Restaurant.mk 1 "Green Bowl" None None; Restaurant.mk 2 "Wrap It" None None].

(** Twelve rows that all match the request of the docstring. *)
Definition twelve_salads : Database := Build_Database one_restaurant (repeat salad 12).

(** The request of the handler's docstring with [goal] and
    [restaurant_id] filled in. *)
Definition request (goal : string) (restaurant_id : pyval) : pyval :=
  PDict [("tall_cm", PInt 175); ("weight_kg", PInt 70); ("budget_usd", PInt 12);
         ("goal", PStr goal); ("restaurant_id", restaurant_id)].

(** The same request without [tall_cm]. *)
Definition request_without_tall_cm : list (string * pyval) :=
  [("weight_kg", PInt 70); ("budget_usd", PInt 12); ("goal", PStr "lose")].

End AppSpec.

Module MainAppSpec.
Import Py MainApp.

(** Number of POSTs to the inference endpoint in a log. *)
Fixpoint hf_calls (log : list event) : nat :=
  match log with
  | [] => 0
  | HFPost _ :: log' => S (hf_calls log')
  | _ :: log' => hf_calls log'
  end.

(** Connections opened and not yet closed. *)
Fixpoint open_connections (log : list event) : Z :=
  match log with
  | [] => 0
  | Connect :: log' => open_connections log' + 1
  | Close :: log' => open_connections log' - 1
  | HFPost _ :: log' => open_connections log'
  end.

(** The status the caller receives.  The framework answers a returned
    value with 200 and an [HTTPException] with its status; the handler
    catches nothing, and an exception that leaves it is answered with
    500 by the framework. *)
Definition status_answered {A} (o : outcome A) : Z :=
  match o with
  | Return _ => 200
  | HTTPError status_code _ => status_code
  | Raise _ => 500
  end.

(** The items fetched for a request and the prompt built from them. *)
Definition items_of (w : World) (req : RecommendationRequest) (conn : Connection)
  : list Item.t :=
  fetch_affordable_items w conn (daily_budget_egp (profile req)).

Definition prompt_of (w : World) (req : RecommendationRequest) (conn : Connection)
  : string :=
  build_prompt w (profile req) (items_of w req conn).

(** *** A concrete world *)

(** Renders a float that is a whole number (the only floats of the
    examples) followed by [suffix]. *)
Definition whole (suffix : string) (x : float) : string :=
  match int_of_float x with
  | Return z => str_of_Z z ++ suffix
  | _ => "nan"
  end.

Definition world_of (conn : option Connection) (endpoint : string -> hf_reply) : World := {|
  connect := conn;
  random_order := fun rows => rows;
  random_order_perm := fun rows => Permutation_refl rows;
  float_str := whole ".0";
  float_2f := whole ".00";
  hf_post := endpoint
|}.

Definition cairo : Connection := {|
  restaurant := [ {| r_id := 1; r_name := Some "Koshary House" |} ];
  menu_item :=
    [ {| m_restaurant_id := Some 1; m_item_en := Some "Koshary"; m_item_ar := None;
         m_price_egp := Some (float_of_Z 25) |};
      {| m_restaurant_id := Some 1; m_item_en := Some "Grilled fish"; m_item_ar := None;
         m_price_egp := Some (float_of_Z 180) |} ]
|}.

Definition request (budget : Z) : RecommendationRequest :=
  {| profile := {| height_cm := 175; weight_kg := float_of_Z 70;
                   daily_budget_egp := float_of_Z budget; goal := lose_weight |} |}.

(** An endpoint that echoes the prompt before its answer. *)
Definition echo : string -> hf_reply :=
  fun prompt =>
    Reply 200 (Some (PList [PDict [("generated_text",
                                    PStr (prompt ++ newline ++ "Eat well." ++ newline))]])).

(** An endpoint that is out of quota, and one that is down. *)
Definition out_of_quota : string -> hf_reply := fun _ => Reply 429 None.
Definition unavailable : string -> hf_reply := fun _ => Reply 503 None.

End MainAppSpec.

(** ** Words for the further properties *)

Module BoundSpec.
Import Py.

(** [atleast T j m e]: the positive number [m * 2^e] is at least
    [T * 2^j]. *)
Definition atleast (T j m e : Z) : Prop :=
  0 < m /\ (e <= j -> T * 2 ^ (j - e) <= m) /\ (j < e -> T <= m * 2 ^ (e - j)).

(** [atmost T j m e]: the number [m * 2^e] is at most [T * 2^j]. *)
Definition atmost (T j m e : Z) : Prop :=
  (e <= j -> m <= T * 2 ^ (j - e)) /\ (j < e -> m * 2 ^ (e - j) <= T).

(** A float that is at least [T * 2^j], plus infinity included. *)
Definition float_atleast (T j : Z) (x : float) : Prop :=
  match x with
  | S754_finite false m e => atleast T j (Zpos m) e
  | S754_infinity false => True
  | _ => False
  end.

End BoundSpec.

Module CatalogSpec.
Import Py App AppSpec.

(** The tests a menu item passes to be selected by the query of
    [/recommend]: the test on price and calories, and the restaurant test
    when the request has a truthy id. *)
Definition matches (rt : Runtime) (restaurant_id : pyval) (budget_usd : float)
    (target_cal : Z) (i : MenuItem.t) : Prop :=
  in_bracket budget_usd target_cal i = true
  /\ (truthy restaurant_id = true ->
      exists test, restaurant_id_eq rt restaurant_id = Some test
                   /\ on_column test (MenuItem.restaurant_id i) = true).

(** The exception [int()] raises for a float that is not finite. *)
Definition not_finite_error (x : float) : pyexc :=
  match x with
  | S754_nan => ValueError "cannot convert float NaN to integer"
  | _ => OverflowError "cannot convert float infinity to integer"
  end.

(** The docstring's request with another height, and with another
    weight. *)
Definition request_tall (tall_cm : Z) : list (string * pyval) :=
  [("tall_cm", PInt tall_cm); ("weight_kg", PInt 70); ("budget_usd", PInt 12);
   ("goal", PStr "lose")].

Definition request_weight (weight_kg : pyval) : pyval :=
  PDict [("tall_cm", PInt 175); ("weight_kg", weight_kg); ("budget_usd", PInt 12);
         ("goal", PStr "lose")].

Definition salad_and_orphan : Database :=
  Build_Database one_restaurant [salad; orphan].

Definition salad_and_wrap : Database :=
  Build_Database two_restaurants [salad; wrap].

Definition wrap_json : ItemJson.t :=
  ItemJson.mk "Wrap" (Some 1250) None None None (Some (float_of_Z 11)) (Some 2) "Wrap It".

End CatalogSpec.

Module PlanSpec.
Import Py MainApp MainAppSpec.

(** The line of the table [build_prompt] writes for an item. *)
Definition table_row (w : World) (it : Item.t) : string :=
  "| " ++ str_of_opt (Item.restaurant it) ++ " | " ++ str_of_opt (Item.en it)
  ++ " | " ++ str_of_opt (Item.ar it) ++ " | " ++ float_2f w (Item.price it) ++ " |".

(** The item the query selects for a menu row and the restaurant it is
    joined with. *)
Definition joined (m : menu_item_row) (r : restaurant_row) (p : float) : Item.t :=
  Item.mk (r_name r) (m_item_en m) (m_item_ar m) p.

Definition koshary : Item.t :=
  Item.mk (Some "Koshary House") (Some "Koshary") None (float_of_Z 25).

(** An endpoint that answers with a plan and does not echo the prompt. *)
Definition plain : string -> hf_reply :=
  fun _ => Reply 200 (Some (PList [PDict [("generated_text", PStr "Eat well.")]])).

End PlanSpec.

(* ================================================================== *)
(** * Part III: the properties *)
(* ================================================================== *)

(** ** Lists and outcomes *)

Module Util.
Import Py.

Lemma Return_inj {A} (a b : A) : Return a = Return b -> a = b.
Proof. congruence. Qed.

Lemma Forall2_In_r {A B} (R : A -> B -> Prop) (l : list A) (l' : list B) (b : B) :
  Forall2 R l l' -> In b l' -> exists a, In a l /\ R a b.
Proof.
  induction 1 as [ | x y l l' Hxy _ IH ]; intros Hin; [contradiction | ].
  destruct Hin as [-> | Hin].
  - exists x. split; [left; reflexivity | assumption].
  - destruct (IH Hin) as [a [Ha HR]]. exists a. split; [right | ]; assumption.
Qed.

Lemma In_firstn {A} (n : nat) (l : list A) (x : A) : In x (firstn n l) -> In x l.
Proof.
  revert l. induction n as [ | n IH ]; intros [ | y l ] H; cbn in H; try contradiction.
  destruct H as [-> | H]; [left; reflexivity | right; apply IH; assumption].
Qed.

End Util.

(** ** Strings: prefixes and [strip] *)

Module StringFacts.
Import Py StringSpec.

Lemma prefix_append (p r : string) : String.prefix p (p ++ r) = true.
Proof.
  induction p as [ | c p IH ]; [destruct r; reflexivity | ]. cbn.
  destruct (ascii_dec c c); [exact IH | contradiction].
Qed.

Lemma drop_append (p r : string) : drop (String.length p) (p ++ r) = r.
Proof. induction p as [ | c p IH ]; [destruct r; reflexivity | exact IH]. Qed.

Lemma prefix_drop (p s : string) :
  String.prefix p s = true -> s = p ++ drop (String.length p) s.
Proof.
  revert s. induction p as [ | c p IH ]; intros s H.
  - destruct s; reflexivity.
  - destruct s as [ | c' s ]; [discriminate H | ]. cbn in H.
    destruct (ascii_dec c c') as [ <- | ]; [ | discriminate H ].
    cbn [String.length drop append]. f_equal. apply IH, H.
Qed.

Lemma blank_app (l1 l2 : list ascii) : blank l1 -> blank l2 -> blank (l1 ++ l2).
Proof.
  induction 1; intros H2; cbn [app]; [assumption | | | ].
  - apply blank_1; auto.
  - apply blank_2; auto.
  - apply blank_3; auto.
Qed.

Lemma blank_in_order_cons (rev : bool) (u pre : list ascii) :
  blank (in_order rev u) -> blank (in_order rev pre) -> blank (in_order rev (u ++ pre)).
Proof.
  destruct rev; cbn [in_order]; intros Hu Hp.
  - rewrite rev_app_distr. apply blank_app; assumption.
  - apply blank_app; assumption.
Qed.

Lemma lstrip_bytes_spec (rev : bool) (n : nat) :
  forall l, (List.length l < n)%nat ->
    exists pre, l = (pre ++ lstrip_bytes rev l)%list
                /\ blank (in_order rev pre)
                /\ stops rev (lstrip_bytes rev l) = false.
Proof.
  induction n as [ | n IH ]; intros l Hl; [lia | ].
  destruct l as [ | a s1 ]; [exists []; repeat split; destruct rev; constructor | ].
  cbn [List.length] in Hl. cbn [lstrip_bytes].
  destruct (isspace1 a) eqn:Ea.
  { destruct (IH s1 ltac:(lia)) as (pre & Hpre & Hb & Hs).
    exists ([a] ++ pre)%list. split; [cbn [app]; congruence | split; [ | exact Hs] ].
    apply blank_in_order_cons; [ | assumption ].
    destruct rev; cbn; apply blank_1; [assumption | constructor | assumption | constructor]. }
  destruct s1 as [ | b s2 ].
  { exists []. split; [reflexivity | split; [destruct rev; constructor | ] ].
    cbn [stops]. rewrite Ea. reflexivity. }
  cbn [List.length] in Hl.
  destruct (if rev then isspace2 b a else isspace2 a b) eqn:Eb.
  { destruct (IH s2 ltac:(lia)) as (pre & Hpre & Hb & Hs).
    exists ([a; b] ++ pre)%list. split; [cbn [app]; congruence | split; [ | exact Hs] ].
    apply blank_in_order_cons; [ | assumption ].
    destruct rev; cbn; apply blank_2; [assumption | constructor | assumption | constructor]. }
  destruct s2 as [ | c s3 ].
  { exists []. split; [reflexivity | split; [destruct rev; constructor | ] ].
    cbn [stops]. rewrite Ea, Eb. reflexivity. }
  cbn [List.length] in Hl.
  destruct (if rev then isspace3 c b a else isspace3 a b c) eqn:Ec.
  { destruct (IH s3 ltac:(lia)) as (pre & Hpre & Hb & Hs).
    exists ([a; b; c] ++ pre)%list. split; [cbn [app]; congruence | split; [ | exact Hs] ].
    apply blank_in_order_cons; [ | assumption ].
    destruct rev; cbn; apply blank_3; [assumption | constructor | assumption | constructor]. }
  exists []. split; [reflexivity | split; [destruct rev; constructor | ] ].
  cbn [stops]. rewrite Ea, Eb, Ec. reflexivity.
Qed.

Lemma begins_blank_prefix (r x : list ascii) :
  begins_blank (r ++ x) = false -> begins_blank r = false.
Proof.
  destruct r as [ | a [ | b [ | c r ] ] ]; cbn [app begins_blank]; intros H;
    try reflexivity; try exact H.
  - apply orb_false_iff in H. destruct H as [H _]. rewrite H. reflexivity.
  - apply orb_false_iff in H. destruct H as [H1 H]. rewrite H1. cbn [orb].
    destruct x as [ | c x ]; cbn [app] in *.
    + rewrite orb_false_r in H. rewrite H. reflexivity.
    + apply orb_false_iff in H. destruct H as [H2 _]. rewrite H2. reflexivity.
Qed.

(** [strip] removes the white space around a string, and no more. *)
Lemma strip_stripped (s : string) : stripped s (strip s).
Proof.
  unfold stripped, strip. rewrite list_ascii_of_string_of_list_ascii.
  set (A := lstrip_bytes false (list_ascii_of_string s)).
  set (B := lstrip_bytes true (List.rev A)).
  destruct (lstrip_bytes_spec false _ (list_ascii_of_string s) (Nat.lt_succ_diag_r _))
    as (pre & HA & Hpre & HsA). fold A in HA, HsA.
  destruct (lstrip_bytes_spec true _ (List.rev A) (Nat.lt_succ_diag_r _))
    as (post & HB & Hpost & HsB). fold B in HB, HsB.
  assert (EA : A = (List.rev B ++ List.rev post)%list).
  { rewrite <- rev_app_distr, <- HB, rev_involutive. reflexivity. }
  exists pre, (List.rev post). split; [ | split; [ | split; [ | split ] ] ].
  - rewrite <- EA. exact HA.
  - exact Hpre.
  - exact Hpost.
  - apply (begins_blank_prefix _ (List.rev post)). rewrite <- EA. exact HsA.
  - unfold ends_blank. rewrite rev_involutive. exact HsB.
Qed.

(** What the handler makes of a text [text] returned for the prompt [p]. *)
Lemma strip_echo_spec (p text : string) :
  let body := if startswith text p then strip (drop (String.length p) text) else text in
  (forall rest, text = p ++ rest -> body = strip rest /\ stripped rest body)
  /\ ((forall rest, text <> p ++ rest) -> body = text).
Proof.
  cbv zeta. unfold startswith. split.
  - intros rest ->. rewrite prefix_append, drop_append.
    split; [reflexivity | apply strip_stripped].
  - intros Hno. destruct (String.prefix p text) eqn:E; [ | reflexivity ].
    exfalso. exact (Hno _ (prefix_drop _ _ E)).
Qed.

End StringFacts.

(** ** Rounding keeps a float above a power of two, and truncation on exact
       values *)

Module FloatFacts.
Import Py FloatSpec.

Lemma digits2_pos_bounds (m : positive) :
  2 ^ (Zpos (digits2_pos m) - 1) <= Zpos m < 2 ^ Zpos (digits2_pos m).
Proof.
  induction m as [m IH | m IH | ]; cbn [digits2_pos].
  - rewrite Pos2Z.inj_succ, Z.pow_succ_r by lia.
    replace (Z.succ (Zpos (digits2_pos m)) - 1) with (Z.succ (Zpos (digits2_pos m) - 1)) by lia.
    rewrite Z.pow_succ_r by lia. lia.
  - rewrite Pos2Z.inj_succ, Z.pow_succ_r by lia.
    replace (Z.succ (Zpos (digits2_pos m)) - 1) with (Z.succ (Zpos (digits2_pos m) - 1)) by lia.
    rewrite Z.pow_succ_r by lia. lia.
  - cbn. lia.
Qed.

Lemma shr_1_m (mrs : shr_record) :
  0 <= shr_m mrs -> shr_m (shr_1 mrs) = shr_m mrs / 2.
Proof.
  destruct mrs as [m r s]; cbn [shr_m]; intros Hm.
  destruct m as [ | [p | p | ] | p ]; cbn [shr_1 shr_m]; try lia;
    first [ reflexivity
          | apply Z.div_unique with (r := 1); lia
          | apply Z.div_unique with (r := 0); lia ].
Qed.

Lemma pow2_xI (p : positive) : 2 ^ Zpos p~1 = 2 * 2 ^ Zpos p * 2 ^ Zpos p.
Proof.
  replace (Zpos p~1) with (1 + Zpos p + Zpos p) by lia.
  rewrite !Z.pow_add_r by lia. reflexivity.
Qed.

Lemma pow2_xO (p : positive) : 2 ^ Zpos p~0 = 2 ^ Zpos p * 2 ^ Zpos p.
Proof.
  replace (Zpos p~0) with (Zpos p + Zpos p) by lia.
  rewrite !Z.pow_add_r by lia. reflexivity.
Qed.

Lemma pow2_pos (n : Z) : 0 <= n -> 0 < 2 ^ n.
Proof. intros. apply Z.pow_pos_nonneg; lia. Qed.

Lemma iter_shr_1_m (p : positive) :
  forall mrs, 0 <= shr_m mrs ->
    shr_m (iter_pos shr_1 p mrs) = shr_m mrs / 2 ^ Zpos p.
Proof.
  pose proof (pow2_pos (Zpos p) ltac:(lia)) as Hp.
  induction p as [p IH | p IH | ]; intros mrs Hm; cbn [iter_pos].
  - pose proof (pow2_pos (Zpos p) ltac:(lia)) as Hq.
    assert (H1 : 0 <= shr_m (shr_1 mrs)).
    { rewrite shr_1_m by assumption. apply Z.div_pos; lia. }
    assert (H2 : 0 <= shr_m (iter_pos shr_1 p (shr_1 mrs))).
    { rewrite IH by assumption. apply Z.div_pos; lia. }
    rewrite (IH Hq _ H2), (IH Hq _ H1), shr_1_m by assumption.
    rewrite pow2_xI, !Z.div_div by lia. f_equal. lia.
  - pose proof (pow2_pos (Zpos p) ltac:(lia)) as Hq.
    assert (H2 : 0 <= shr_m (iter_pos shr_1 p mrs)).
    { rewrite IH by assumption. apply Z.div_pos; lia. }
    rewrite (IH Hq _ H2), (IH Hq _ Hm).
    rewrite pow2_xO, !Z.div_div by lia. f_equal.
  - rewrite shr_1_m by assumption. reflexivity.
Qed.

Lemma shr_record_of_loc_m (m : Z) (l : location) : shr_m (shr_record_of_loc m l) = m.
Proof. destruct l as [ | [ | | ] ]; reflexivity. Qed.

(** [shr_fexp] divides the mantissa by the power of two it adds to the
    exponent. *)
Lemma shr_fexp_spec (m e : Z) (l : location) :
  0 <= m ->
  let n := Z.max 0 (fexp prec emax (Zdigits2 m + e) - e) in
  shr_m (fst (shr_fexp prec emax m e l)) = m / 2 ^ n
  /\ snd (shr_fexp prec emax m e l) = e + n.
Proof.
  intros Hm n. unfold shr_fexp, shr. subst n.
  destruct (fexp prec emax (Zdigits2 m + e) - e) as [ | p | p ] eqn:E; cbn [fst snd].
  - rewrite shr_record_of_loc_m. cbn. rewrite Z.div_1_r. lia.
  - rewrite iter_shr_1_m by (rewrite shr_record_of_loc_m; assumption).
    rewrite shr_record_of_loc_m.
    replace (Z.max 0 (Zpos p)) with (Zpos p) by lia. split; reflexivity.
  - rewrite shr_record_of_loc_m.
    replace (Z.max 0 (Zneg p)) with 0 by lia. cbn. rewrite Z.div_1_r. lia.
Qed.

Lemma fexp_eq (x : Z) : fexp prec emax x = Z.max (x - 53) (-1074).
Proof. reflexivity. Qed.

Lemma shr_fexp_above (k m e : Z) (l : location) :
  -1074 <= k -> above k m e ->
  above k (shr_m (fst (shr_fexp prec emax m e l))) (snd (shr_fexp prec emax m e l)).
Proof.
  intros Hk [Hm Hb].
  destruct (shr_fexp_spec m e l ltac:(lia)) as [-> ->].
  destruct m as [ | p | p ]; try lia.
  cbn [Zdigits2]. rewrite fexp_eq.
  pose proof (digits2_pos_bounds p) as [Hlo _].
  set (d := Zpos (digits2_pos p)) in *.
  assert (Hd : 1 <= d) by (subst d; lia).
  set (n := Z.max 0 (Z.max (d + e - 53) (-1074) - e)).
  assert (Hn : 0 <= n) by (subst n; lia).
  pose proof (pow2_pos n Hn) as Hpn.
  destruct (Z.le_gt_cases (e + n) k) as [Hle | Hgt].
  - assert (H2 : 2 ^ (k - (e + n)) <= Zpos p / 2 ^ n).
    { apply Z.div_le_lower_bound; [assumption | ].
      rewrite <- Z.pow_add_r by lia.
      replace (n + (k - (e + n))) with (k - e) by lia. apply Hb. lia. }
    pose proof (pow2_pos (k - (e + n)) ltac:(lia)).
    split; [lia | intros _; assumption].
  - split; [ | lia ].
    destruct (Z.eq_dec n 0) as [-> | Hn0].
    { rewrite Z.pow_0_r, Z.div_1_r. lia. }
    assert (En : n = d - 53) by (subst n; lia).
    assert (H2 : 2 ^ 52 <= Zpos p / 2 ^ n).
    { apply Z.div_le_lower_bound; [assumption | ].
      rewrite <- Z.pow_add_r by lia.
      replace (n + 52) with (d - 1) by lia. assumption. }
    pose proof (pow2_pos 52 ltac:(lia)). lia.
Qed.

Lemma round_nearest_even_ge (m : Z) (l : location) : m <= round_nearest_even m l.
Proof.
  destruct l as [ | [ | | ] ]; cbn [round_nearest_even]; try lia.
  destruct (Z.even m); lia.
Qed.

Lemma above_mono (k m m' e : Z) : above k m e -> m <= m' -> above k m' e.
Proof. intros [Hm Hb] Hle. split; [lia | intros He; specialize (Hb He); lia]. Qed.

(** Rounding a positive number that is at least [2^k] gives a float that
    is at least [2^k] (or overflows to plus infinity). *)
Lemma binary_round_aux_above (k m e : Z) (l : location) :
  -1074 <= k -> above k m e ->
  ge_pow2 k (binary_round_aux prec emax false m e l).
Proof.
  intros Hk Ha. unfold binary_round_aux.
  pose proof (shr_fexp_above k m e l Hk Ha) as H1.
  destruct (shr_fexp prec emax m e l) as [mrs' e'] eqn:E1. cbn [fst snd] in H1.
  pose proof (above_mono _ _ _ _ H1
                (round_nearest_even_ge (shr_m mrs') (loc_of_shr_record mrs'))) as H2.
  pose proof (shr_fexp_above k _ e' loc_Exact Hk H2) as H3.
  destruct (shr_fexp prec emax (round_nearest_even (shr_m mrs') (loc_of_shr_record mrs'))
              e' loc_Exact) as [mrs'' e''] eqn:E2.
  cbn [fst snd] in H3.
  destruct (shr_m mrs'') as [ | p | p ] eqn:E3.
  - destruct H3; lia.
  - destruct (e'' <=? emax - prec)%Z; cbn [ge_pow2]; [assumption | exact I].
  - destruct H3; lia.
Qed.

(** Without a lower bound the result is still not negative. *)
Lemma binary_round_aux_nonneg (m e : Z) (l : location) :
  0 <= m -> nonneg (binary_round_aux prec emax false m e l).
Proof.
  intros Hm. unfold binary_round_aux.
  destruct (shr_fexp_spec m e l Hm) as [Hm1 _].
  destruct (shr_fexp prec emax m e l) as [mrs' e'] eqn:E1. cbn [fst snd] in Hm1.
  assert (H1 : 0 <= shr_m mrs').
  { rewrite Hm1. apply Z.div_pos; [assumption | apply pow2_pos; lia]. }
  pose proof (round_nearest_even_ge (shr_m mrs') (loc_of_shr_record mrs')) as H2.
  destruct (shr_fexp_spec (round_nearest_even (shr_m mrs') (loc_of_shr_record mrs'))
              e' loc_Exact ltac:(lia)) as [Hm2 _].
  destruct (shr_fexp prec emax (round_nearest_even (shr_m mrs') (loc_of_shr_record mrs'))
              e' loc_Exact) as [mrs'' e''] eqn:E2.
  cbn [fst snd] in Hm2.
  assert (H3 : 0 <= shr_m mrs'').
  { rewrite Hm2. apply Z.div_pos; [lia | apply pow2_pos; lia]. }
  destruct (shr_m mrs'') as [ | p | p ]; cbn [nonneg]; try exact I; try lia.
  destruct (e'' <=? emax - prec)%Z; exact I.
Qed.

Lemma iter_xO (m d : positive) : Zpos (Pos.iter xO m d) = Zpos m * 2 ^ Zpos d.
Proof.
  induction d as [ | d IH ] using Pos.peano_ind.
  - cbn. lia.
  - rewrite Pos.iter_succ, Pos2Z.inj_xO, IH, Pos2Z.inj_succ, Z.pow_succ_r by lia. lia.
Qed.

Lemma shl_align_spec (mx : positive) (ex ex' : Z) :
  snd (shl_align mx ex ex') = Z.min ex ex'
  /\ Zpos (fst (shl_align mx ex ex')) = Zpos mx * 2 ^ (ex - Z.min ex ex').
Proof.
  unfold shl_align.
  destruct (ex' - ex) as [ | d | d ] eqn:E; cbn [fst snd].
  - replace (Z.min ex ex') with ex by lia. rewrite Z.sub_diag. cbn. lia.
  - replace (Z.min ex ex') with ex by lia. rewrite Z.sub_diag. cbn. lia.
  - replace (Z.min ex ex') with ex' by lia. rewrite iter_xO.
    replace (ex - ex') with (Zpos d) by lia. split; reflexivity.
Qed.

(** Aligning a mantissa on a smaller exponent keeps the lower bound. *)
Lemma above_align (k : Z) (mx : positive) (ex ez : Z) :
  ez <= ex -> above k (Zpos mx) ex -> above k (Zpos mx * 2 ^ (ex - ez)) ez.
Proof.
  intros Hz [_ Hb].
  pose proof (pow2_pos (ex - ez) ltac:(lia)) as Hp.
  split; [lia | intros Hk].
  destruct (Z.le_gt_cases ex k) as [Hle | Hgt].
  - specialize (Hb Hle).
    replace (k - ez) with ((k - ex) + (ex - ez)) by lia.
    rewrite Z.pow_add_r by lia.
    apply Z.mul_le_mono_nonneg_r; lia.
  - apply Z.le_trans with (2 ^ (ex - ez)).
    + apply Z.pow_le_mono_r; lia.
    + nia.
Qed.

Lemma binary_round_above (k : Z) (m : positive) (e : Z) :
  -1074 <= k -> above k (Zpos m) e ->
  ge_pow2 k (binary_round prec emax false m e).
Proof.
  intros Hk Ha. unfold binary_round.
  pose proof (shl_align_spec m e (fexp prec emax (Zpos (digits2_pos m) + e))) as [Hs Hf].
  destruct (shl_align m e (fexp prec emax (Zpos (digits2_pos m) + e))) as [mz ez].
  cbn [fst snd] in Hs, Hf.
  apply binary_round_aux_above; [assumption | ].
  rewrite Hf, Hs. apply above_align; [lia | assumption].
Qed.

Lemma ge_pow2_nonneg (k : Z) (x : float) : ge_pow2 k x -> nonneg x.
Proof. destruct x as [ | [ | ] | | [ | ] m e ]; cbn; tauto. Qed.

(** The sum of a float that is at least [2^k] and one that is not
    negative is at least [2^k]. *)
Lemma fadd_ge_l (k : Z) (x y : float) :
  -1074 <= k -> ge_pow2 k x -> nonneg y -> ge_pow2 k (fadd x y).
Proof.
  intros Hk Hx Hy.
  destruct x as [ sx | [ | ] | | [ | ] mx ex ]; cbn [ge_pow2] in Hx; try contradiction;
    destruct y as [ sy | [ | ] | | [ | ] my ey ]; cbn [nonneg] in Hy; try contradiction;
    try exact I; try exact Hx.
  unfold fadd, SFadd.
  pose proof (shl_align_spec mx ex (Z.min ex ey)) as [_ Hfx].
  pose proof (shl_align_spec my ey (Z.min ex ey)) as [_ Hfy].
  cbn [cond_Zopp]. cbn [Z.add binary_normalize].
  apply binary_round_above; [assumption | ].
  rewrite Pos2Z.inj_add.
  apply above_mono with (m := Zpos (fst (shl_align mx ex (Z.min ex ey)))); [ | lia ].
  rewrite Hfx. replace (Z.min ex (Z.min ex ey)) with (Z.min ex ey) by lia.
  apply above_align; [lia | assumption].
Qed.

Lemma fadd_ge_r (k : Z) (x y : float) :
  -1074 <= k -> nonneg x -> ge_pow2 k y -> ge_pow2 k (fadd x y).
Proof.
  intros Hk Hx Hy.
  destruct y as [ sy | [ | ] | | [ | ] my ey ]; cbn [ge_pow2] in Hy; try contradiction;
    destruct x as [ sx | [ | ] | | [ | ] mx ex ]; cbn [nonneg] in Hx; try contradiction;
    try exact I; try exact Hy.
  unfold fadd, SFadd.
  pose proof (shl_align_spec mx ex (Z.min ex ey)) as [_ Hfx].
  pose proof (shl_align_spec my ey (Z.min ex ey)) as [_ Hfy].
  cbn [cond_Zopp]. cbn [Z.add binary_normalize].
  apply binary_round_above; [assumption | ].
  rewrite Pos2Z.inj_add.
  apply above_mono with (m := Zpos (fst (shl_align my ey (Z.min ex ey)))); [ | lia ].
  rewrite Hfy. replace (Z.min ey (Z.min ex ey)) with (Z.min ex ey) by lia.
  apply above_align; [lia | assumption].
Qed.

(** Taking a positive float that is at most [2^k] away from one that is
    at least [2^(k+1)] leaves at least [2^k]. *)
Lemma fsub_ge (k : Z) (y : float) (mc : positive) (ec : Z) :
  -1074 <= k -> ge_pow2 (k + 1) y -> ec <= k -> Zpos mc <= 2 ^ (k - ec) ->
  ge_pow2 k (fsub y (S754_finite false mc ec)).
Proof.
  intros Hk Hy Hec Hmc.
  destruct y as [ sy | [ | ] | | [ | ] my ey ]; cbn [ge_pow2] in Hy; try contradiction;
    try exact I.
  unfold fsub, SFsub. cbn [cond_Zopp].
  set (ez := Z.min ey ec).
  pose proof (shl_align_spec my ey ez) as [_ Hfy].
  pose proof (shl_align_spec mc ec ez) as [_ Hfc].
  replace (Z.min ey ez) with ez in Hfy by (subst ez; lia).
  replace (Z.min ec ez) with ez in Hfc by (subst ez; lia).
  pose proof (above_align (k + 1) my ey ez ltac:(subst ez; lia) Hy) as [_ Hy'].
  specialize (Hy' ltac:(subst ez; lia)). rewrite <- Hfy in Hy'.
  assert (Hc' : Zpos (fst (shl_align mc ec ez)) <= 2 ^ (k - ez)).
  { rewrite Hfc. replace (k - ez) with ((k - ec) + (ec - ez)) by lia.
    rewrite Z.pow_add_r by (subst ez; lia).
    apply Z.mul_le_mono_nonneg_r; [ | assumption].
    apply Z.lt_le_incl, pow2_pos. subst ez; lia. }
  replace (k + 1 - ez) with (Z.succ (k - ez)) in Hy' by lia.
  rewrite Z.pow_succ_r in Hy' by (subst ez; lia).
  pose proof (pow2_pos (k - ez) ltac:(subst ez; lia)) as Hp.
  destruct (Zpos (fst (shl_align my ey ez)) - Zpos (fst (shl_align mc ec ez)))
    as [ | d | d ] eqn:Ed; try lia.
  cbn [binary_normalize].
  apply binary_round_above; [assumption | ].
  split; [lia | intros _; lia].
Qed.

(** A product of two positive floats is not negative. *)
Lemma fmul_nonneg (mx : positive) (ex : Z) (y : float) :
  fltb (float_of_Z 0) y = true -> nonneg (fmul (S754_finite false mx ex) y).
Proof.
  intros Hy.
  destruct y as [ sy | [ | ] | | [ | ] my ey ]; try discriminate Hy; try exact I.
  unfold fmul, SFmul. cbn [xorb].
  apply binary_round_aux_nonneg. lia.
Qed.

(** *** The value of a finite float, in closed form *)

Lemma float_value_exp_nonneg (s : bool) (m : positive) (e : Z) :
  0 <= e ->
  (float_value (S754_finite s m e) == inject_Z (cond_Zopp s (Zpos m) * 2 ^ e))%Q.
Proof.
  intros He. cbn [float_value].
  rewrite inject_Z_mult, (Zpower_Qpower 2 e He). reflexivity.
Qed.

Lemma float_value_exp_neg (s : bool) (m : positive) (e : Z) :
  e < 0 ->
  (float_value (S754_finite s m e) == cond_Zopp s (Zpos m) # Z.to_pos (2 ^ (- e)))%Q.
Proof.
  intros He. cbn [float_value].
  destruct e as [ | p | p ]; try lia.
  cbn [Qpower Z.opp]. change 2%Q with (2 # 1)%Q.
  rewrite Qpower_decomp_positive.
  rewrite <- Pos2Z.inj_pow. cbn [Qinv Qnum Qden Z.to_pos].
  unfold Qeq, Qmult, inject_Z; cbn [Qnum Qden].
  rewrite (Pos2Z.inj_pow 1 p), Z.pow_1_l by lia. lia.
Qed.

Lemma float_value_above (k : Z) (m : positive) (e : Z) :
  0 <= k -> above k (Zpos m) e ->
  (inject_Z (2 ^ k) <= float_value (S754_finite false m e))%Q.
Proof.
  intros Hk [_ Hb].
  destruct (Z.le_gt_cases 0 e) as [He | He].
  - rewrite float_value_exp_nonneg by assumption. cbn [cond_Zopp].
    rewrite <- Zle_Qle.
    pose proof (pow2_pos e He) as Hp.
    destruct (Z.le_gt_cases e k) as [Hle | Hgt].
    + specialize (Hb Hle).
      replace k with ((k - e) + e) at 1 by lia.
      rewrite Z.pow_add_r by lia.
      apply Z.mul_le_mono_nonneg_r; lia.
    + apply Z.le_trans with (2 ^ e); [apply Z.pow_le_mono_r; lia | nia].
  - rewrite float_value_exp_neg by assumption. cbn [cond_Zopp].
    specialize (Hb ltac:(lia)).
    pose proof (pow2_pos (- e) ltac:(lia)) as Hp.
    unfold Qle, inject_Z; cbn [Qnum Qden].
    rewrite Z2Pos.id by assumption.
    replace (k - e) with (k + - e) in Hb by lia.
    rewrite Z.pow_add_r in Hb by lia. lia.
Qed.

(** *** Truncation *)

Lemma Qfloor_add_Z (x : Q) (z : Z) : Qfloor (x + inject_Z z) = Qfloor x + z.
Proof.
  apply Z.le_antisymm.
  - assert (H : (inject_Z (Qfloor (x + inject_Z z)) < inject_Z (Qfloor x + z + 1))%Q).
    { apply Qle_lt_trans with (x + inject_Z z)%Q; [apply Qfloor_le | ].
      replace (Qfloor x + z + 1) with ((Qfloor x + 1) + z) by lia.
      rewrite inject_Z_plus.
      apply Qplus_lt_le_compat; [apply Qlt_floor | apply Qle_refl]. }
    rewrite <- Zlt_Qlt in H. lia.
  - rewrite <- (Qfloor_Z (Qfloor x + z)). apply Qfloor_resp_le.
    rewrite inject_Z_plus.
    apply Qplus_le_compat; [apply Qfloor_le | apply Qle_refl].
Qed.

Lemma int_of_float_positive (x : float) :
  is_finite x = true -> (0 < float_value x)%Q ->
  int_of_float x = Return (Qfloor (float_value x)).
Proof.
  intros Hf Hv.
  destruct x as [ sx | sx | | sx m e ]; try discriminate Hf.
  - cbn in Hv. exfalso. revert Hv. apply Qlt_irrefl.
  - assert (Hs : sx = false).
    { destruct sx; [exfalso | reflexivity].
      cbn [float_value cond_Zopp] in Hv.
      assert (H2 : (0 < 2 ^ e)%Q) by (apply Qpower_0_lt; unfold Qlt; cbn; lia).
      assert (H3 : (inject_Z (- Zpos m) * 2 ^ e <= 0 * 2 ^ e)%Q).
      { apply Qmult_le_compat_r; [ | apply Qlt_le_weak; assumption ].
        unfold Qle; cbn; lia. }
      rewrite Qmult_0_l in H3.
      exact (Qlt_irrefl 0 (Qlt_le_trans _ _ _ Hv H3)). }
    subst sx. cbn [int_of_float cond_Zopp]. f_equal.
    destruct (Z.le_gt_cases 0 e) as [He | He].
    + rewrite (Qfloor_comp _ _ (float_value_exp_nonneg false m e He)).
      rewrite Qfloor_Z. cbn [cond_Zopp]. apply Z.shiftl_mul_pow2. assumption.
    + rewrite (Qfloor_comp _ _ (float_value_exp_neg false m e He)).
      cbn [Qfloor cond_Zopp].
      rewrite Z2Pos.id by (apply pow2_pos; lia).
      apply Z.shiftl_div_pow2. lia.
Qed.

End FloatFacts.

(** ** The catalog service *)

Module AppProofs.
Import Py App FloatSpec FloatFacts AppSpec Util.

(** *** compute_target_calories *)

Lemma compute_target_calories_unfold (weight_kg : float) (goal : string) :
  compute_target_calories weight_kg goal
  = int_of_float (RMR weight_kg
                  + float_of_Z (if String.eqb goal "gain" then 500 else -500))%F.
Proof. reflexivity. Qed.

(** For a positive weight the basal rate is at least 512: the product is
    not negative, 1093.75 is above 1024, taking 150 away leaves 512 and
    adding 5 keeps it. *)
Lemma RMR_ge_512 (weight_kg : float) :
  fltb (float_of_Z 0) weight_kg = true -> ge_pow2 9 (RMR weight_kg).
Proof.
  intros Hw. unfold RMR.
  eval_const (float_of_Z 10).
  eval_const (float_of_dyadic 25 (-2) * float_of_Z 175)%F.
  eval_const (float_of_Z (5 * 30)).
  eval_const (float_of_Z 5).
  apply fadd_ge_l; [lia | | exact I].
  apply fsub_ge; [lia | | lia | vm_compute; discriminate].
  apply fadd_ge_r; [lia | apply fmul_nonneg; assumption | ].
  split; [reflexivity | intros _; vm_compute; discriminate].
Qed.

Lemma fadd_finite_l (x y : float) : is_finite (fadd x y) = true -> is_finite x = true.
Proof.
  destruct x as [ sx | sx | | sx mx ex ]; try reflexivity;
    destruct y as [ sy | sy | | sy my ey ]; try discriminate;
    destruct sx, sy; discriminate.
Qed.

Lemma exact_offset_trunc (x : float) (delta : Z) :
  exact_offset x delta -> (0 < float_value x + inject_Z delta)%Q ->
  int_of_float (x + float_of_Z delta)%F = Return (Qfloor (float_value x) + delta).
Proof.
  intros [Hfin Hval] Hpos.
  rewrite int_of_float_positive; [ | assumption | rewrite Hval; assumption ].
  rewrite (Qfloor_comp _ _ Hval), Qfloor_add_Z. reflexivity.
Qed.

(** C4, as the code has it.  For a weight above zero, when the two float
    additions [RMR + 500] and [RMR - 500] are exact, the targets for
    ["gain"] and for ["lose"] are both computed and differ by exactly
    1000. *)
Theorem target_calories_gain_lose_offset (weight_kg : float) :
  fltb (float_of_Z 0) weight_kg = true ->
  exact_offset (RMR weight_kg) 500 ->
  exact_offset (RMR weight_kg) (-500) ->
  exists gain lose : Z,
    compute_target_calories weight_kg "gain" = Return gain
    /\ compute_target_calories weight_kg "lose" = Return lose
    /\ gain - lose = 1000.
Proof.
  intros Hw Hup Hdown.
  pose proof (RMR_ge_512 weight_kg Hw) as Hge.
  pose proof (fadd_finite_l _ _ (proj1 Hup)) as Hfin.
  assert (Hv : (inject_Z (2 ^ 9) <= float_value (RMR weight_kg))%Q).
  { destruct (RMR weight_kg) as [ s | s | | s m e ]; try discriminate Hfin;
      try contradiction.
    destruct s; [contradiction | ].
    apply float_value_above; [lia | exact Hge]. }
  rewrite !compute_target_calories_unfold. cbn [String.eqb Ascii.eqb Bool.eqb].
  exists (Qfloor (float_value (RMR weight_kg)) + 500),
         (Qfloor (float_value (RMR weight_kg)) + -500).
  split; [ | split; [ | lia ] ].
  - apply exact_offset_trunc; [assumption | ].
    apply Qlt_le_trans with (inject_Z (2 ^ 9) + inject_Z 500)%Q;
      [reflexivity | apply Qplus_le_compat; [assumption | apply Qle_refl] ].
  - apply exact_offset_trunc; [assumption | ].
    apply Qlt_le_trans with (inject_Z (2 ^ 9) + inject_Z (-500))%Q;
      [reflexivity | apply Qplus_le_compat; [assumption | apply Qle_refl] ].
Qed.

Lemma target_calories_gain_lose_offset_witness :
  fltb (float_of_Z 0) (float_of_Z 70) = true
  /\ exists gain lose : Z,
       compute_target_calories (float_of_Z 70) "gain" = Return gain
       /\ compute_target_calories (float_of_Z 70) "lose" = Return lose
       /\ gain - lose = 1000.
Proof.
  split; [reflexivity | ].
  apply (target_calories_gain_lose_offset (float_of_Z 70)).
  - reflexivity.
  - split; [reflexivity | vm_compute; reflexivity].
  - split; [reflexivity | vm_compute; reflexivity].
Defined.

(** C4 as stated fails: at the weight 65.12499999999997 the sum
    [RMR + 500] is rounded up to 2100.0, and the two targets differ by
    1001. *)
Lemma target_calories_difference_1001 :
  fltb (float_of_Z 0) weight_65_125_minus = true
  /\ compute_target_calories weight_65_125_minus "gain" = Return 2100
  /\ compute_target_calories weight_65_125_minus "lose" = Return 1099
  /\ 2100 - 1099 <> 1000.
Proof. repeat split. lia. Qed.

(** At the weight [2^60] the offset is lost in the rounding: the two
    targets are equal. *)
Lemma target_calories_difference_0 :
  compute_target_calories (S754_finite false (2 ^ 52) 8) "gain"
  = compute_target_calories (S754_finite false (2 ^ 52) 8) "lose".
Proof. reflexivity. Qed.

Lemma differ_by_1000_from_spec (n : nat) :
  forall k0 k, differ_by_1000_from n k0 = true -> k0 <= k < k0 + Z.of_nat n ->
    differ_by_1000 (deci k) = true.
Proof.
  induction n as [ | n IH ]; intros k0 k H Hk; [lia | ].
  cbn [differ_by_1000_from] in H. apply andb_true_iff in H. destruct H as [H0 H].
  destruct (Z.eq_dec k k0) as [-> | Hne]; [assumption | ].
  apply (IH (k0 + 1)); [assumption | lia].
Qed.

(** For every weight written with one decimal from 0.1 kg to 500.0 kg the
    two targets are computed and differ by exactly 1000. *)
Theorem target_calories_offset_one_decimal (k : Z) :
  1 <= k <= 5000 ->
  exists gain lose : Z,
    compute_target_calories (deci k) "gain" = Return gain
    /\ compute_target_calories (deci k) "lose" = Return lose
    /\ gain - lose = 1000.
Proof.
  intros Hk.
  assert (H : differ_by_1000 (deci k) = true).
  { apply (differ_by_1000_from_spec (Z.to_nat 5000) 1);
      [vm_compute; reflexivity | rewrite Z2Nat.id; lia]. }
  unfold differ_by_1000 in H.
  destruct (compute_target_calories (deci k) "gain") as [ gain | | ]; try discriminate.
  destruct (compute_target_calories (deci k) "lose") as [ lose | | ]; try discriminate.
  exists gain, lose. repeat split. apply Z.eqb_eq. assumption.
Qed.

Lemma target_calories_offset_one_decimal_witness :
  exists gain lose : Z,
    compute_target_calories (deci 702) "gain" = Return gain
    /\ compute_target_calories (deci 702) "lose" = Return lose
    /\ gain - lose = 1000.
Proof. apply (target_calories_offset_one_decimal 702). lia. Defined.

(** *** What a 200 answer of [/recommend] went through *)

Lemma recommend_return (rt : Runtime) (db : Database) (payload : pyval)
    (log log' : list event) (res : list ItemJson.t) :
  recommend rt db payload log = (Return res, log') ->
  exists tall_cm weight_kg budget_usd goal restaurant_id target_cal items,
    read_payload rt payload = Return (tall_cm, weight_kg, budget_usd, goal, restaurant_id)
    /\ (goal = "gain" \/ goal = "lose")
    /\ compute_target_calories weight_kg goal = Return target_cal
    /\ run_query rt db restaurant_id budget_usd target_cal = Return items
    /\ render db items = Return res
    /\ log' = (log ++ [SessionOpen; SessionClose])%list.
Proof.
  unfold recommend.
  destruct (truthy payload); cbn [negb]; [ | discriminate ].
  destruct (read_payload rt payload) as [ [[[[t w] b] g] rid] | s d | e ] eqn:Eread;
    [ | discriminate | discriminate ].
  destruct (String.eqb g "gain" || String.eqb g "lose") eqn:Eg; cbn [negb];
    [ | discriminate ].
  unfold bind, lift, emit, ret.
  destruct (compute_target_calories w g) as [ T | | ] eqn:ET;
    [ | discriminate | discriminate ].
  destruct (run_query rt db rid b T) as [ items | | ] eqn:Eq;
    [ | discriminate | discriminate ].
  destruct (render db items) as [ res' | | ] eqn:Er; [ | discriminate | discriminate ].
  intros H. inversion H; subst.
  exists t, w, b, g, rid, T, items.
  repeat split; try reflexivity; try assumption.
  - apply orb_true_iff in Eg. destruct Eg as [Eg | Eg]; apply String.eqb_eq in Eg; auto.
  - rewrite <- app_assoc. reflexivity.
Qed.

Lemma render_Forall2 (db : Database) (items : list MenuItem.t) :
  forall res, render db items = Return res -> Forall2 renders items res.
Proof.
  induction items as [ | i items IH ]; intros res H; cbn [render] in H.
  - inversion H. constructor.
  - destruct (restaurant_of db i) as [ r | ]; [ | discriminate ].
    destruct (render db items) as [ res' | | ]; try discriminate.
    cbn [obind] in H. inversion H; subst.
    constructor; [ | apply IH; reflexivity ].
    repeat split.
Qed.

(** A row of the query passed the bracket test and, when [restaurant_id]
    is truthy, the store's test on its restaurant. *)
Lemma run_query_In (rt : Runtime) (db : Database) (rid : pyval) (b : float) (T : Z)
    (items : list MenuItem.t) (i : MenuItem.t) :
  run_query rt db rid b T = Return items -> In i items ->
  in_bracket b T i = true
  /\ (truthy rid = true ->
      exists test, restaurant_id_eq rt rid = Some test
                   /\ on_column test (MenuItem.restaurant_id i) = true).
Proof.
  unfold run_query. intros H Hin.
  destruct (truthy rid).
  - destruct (restaurant_id_eq rt rid) as [ test | ]; [ | discriminate ].
    cbn [obind] in H. apply Return_inj in H. subst items.
    unfold limit in Hin. apply In_firstn, filter_In in Hin. destruct Hin as [Hin Hb].
    apply filter_In in Hin. destruct Hin as [_ Ht].
    split; [assumption | ]. intros _. exists test. split; [reflexivity | assumption].
  - cbn [obind] in H. apply Return_inj in H. subst items.
    unfold limit in Hin. apply In_firstn, filter_In in Hin. destruct Hin as [_ Hb].
    split; [assumption | discriminate].
Qed.

Lemma in_bracket_spec (b : float) (T : Z) (i : MenuItem.t) :
  in_bracket b T i = true ->
  exists price calories,
    MenuItem.price_usd i = Some price /\ MenuItem.calories i = Some calories
    /\ fleb price b = true /\ Z.abs (calories - T) <= 200.
Proof.
  unfold in_bracket, on_column. intros H.
  destruct (MenuItem.price_usd i) as [ p | ]; [ | discriminate ].
  destruct (MenuItem.calories i) as [ c | ];
    [ | rewrite andb_false_r in H; discriminate ].
  apply andb_true_iff in H. destruct H as [H H3].
  apply andb_true_iff in H. destruct H as [H1 H2].
  exists p, c. repeat split; try assumption. lia.
Qed.

(** C1.  Every element of a 200 answer of the catalog [/recommend] has a
    price at most the budget and calories within 200 of the target computed
    from the request's weight and goal; when [restaurant_id] is truthy it
    also passed the store's test on that column, which for an integer
    [restaurant_id] means that it carries that very id. *)
Theorem recommend_items_in_budget_and_bracket
    (rt : Runtime) (db : Database) (payload : pyval)
    (log log' : list event) (res : list ItemJson.t) :
  recommend rt db payload log = (Return res, log') ->
  exists tall_cm weight_kg budget_usd goal restaurant_id target_cal,
    read_payload rt payload = Return (tall_cm, weight_kg, budget_usd, goal, restaurant_id)
    /\ (goal = "gain" \/ goal = "lose")
    /\ compute_target_calories weight_kg goal = Return target_cal
    /\ forall item, In item res ->
         (exists price calories,
             ItemJson.price_usd item = Some price
             /\ ItemJson.calories item = Some calories
             /\ fleb price budget_usd = true
             /\ Z.abs (calories - target_cal) <= 200)
         /\ (truthy restaurant_id = true ->
             exists test, restaurant_id_eq rt restaurant_id = Some test
                          /\ on_column test (ItemJson.restaurant_id item) = true)
         /\ (forall n, restaurant_id = PInt n -> n <> 0 ->
             ItemJson.restaurant_id item = Some n).
Proof.
  intros H.
  destruct (recommend_return _ _ _ _ _ _ H)
    as (t & w & b & g & rid & T & items & Hread & Hg & HT & Hq & Hr & _).
  exists t, w, b, g, rid, T.
  split; [assumption | split; [assumption | split; [assumption | ] ] ].
  intros item Hitem.
  destruct (Forall2_In_r _ _ _ _ (render_Forall2 _ _ _ Hr) Hitem)
    as (i & Hi & Hc & Hp & Hid).
  destruct (run_query_In _ _ _ _ _ _ _ Hq Hi) as [Hb Ht].
  split; [ | split ].
  - destruct (in_bracket_spec _ _ _ Hb) as (p & c & Ep & Ec & Hle & Habs).
    exists p, c. rewrite Hp, Hc. auto.
  - intros Htruthy. rewrite Hid. apply Ht. assumption.
  - intros n -> Hn.
    destruct Ht as (test & Et & Hcol).
    { cbn [truthy]. apply negb_true_iff, Z.eqb_neq. assumption. }
    cbn [restaurant_id_eq] in Et. inversion Et; subst test.
    rewrite Hid. unfold on_column in Hcol.
    destruct (MenuItem.restaurant_id i) as [ c | ]; [ | discriminate ].
    apply Z.eqb_eq in Hcol. subst. reflexivity.
Qed.

Lemma recommend_items_in_budget_and_bracket_witness :
  recommend strict_runtime (Build_Database two_restaurants [salad; wrap])
    (request "lose" (PInt 1)) []
  = (Return [salad_json], [SessionOpen; SessionClose])
  /\ exists tall_cm weight_kg budget_usd goal restaurant_id target_cal,
       read_payload strict_runtime (request "lose" (PInt 1))
       = Return (tall_cm, weight_kg, budget_usd, goal, restaurant_id)
       /\ (goal = "gain" \/ goal = "lose")
       /\ compute_target_calories weight_kg goal = Return target_cal
       /\ forall item, In item [salad_json] ->
            (exists price calories,
                ItemJson.price_usd item = Some price
                /\ ItemJson.calories item = Some calories
                /\ fleb price budget_usd = true
                /\ Z.abs (calories - target_cal) <= 200)
            /\ (truthy restaurant_id = true ->
                exists test, restaurant_id_eq strict_runtime restaurant_id = Some test
                             /\ on_column test (ItemJson.restaurant_id item) = true)
            /\ (forall n, restaurant_id = PInt n -> n <> 0 ->
                ItemJson.restaurant_id item = Some n).
Proof.
  split; [reflexivity | ].
  apply (recommend_items_in_budget_and_bracket strict_runtime
           (Build_Database two_restaurants [salad; wrap]) (request "lose" (PInt 1))
           [] [SessionOpen; SessionClose] [salad_json]).
  reflexivity.
Defined.

Lemma render_names (db : Database) (items : list MenuItem.t) :
  forall res item, render db items = Return res -> In item res ->
    exists rid r,
      ItemJson.restaurant_id item = Some rid
      /\ find (fun r => (Restaurant.id r =? rid)%Z) (restaurants db) = Some r
      /\ ItemJson.restaurant_name item = Restaurant.name r.
Proof.
  induction items as [ | i items IH ]; intros res item H Hin; cbn [render] in H.
  - apply Return_inj in H. subst res. contradiction.
  - destruct (restaurant_of db i) as [ r | ] eqn:Eof; [ | discriminate ].
    destruct (render db items) as [ res' | | ] eqn:Er; try discriminate.
    cbn [obind] in H. apply Return_inj in H. subst res.
    destruct Hin as [<- | Hin]; [ | exact (IH res' item eq_refl Hin) ].
    unfold restaurant_of in Eof.
    destruct (MenuItem.restaurant_id i) as [ rid | ] eqn:Erid; [ | discriminate ].
    exists rid, r. cbn. auto.
Qed.

(** Every element of a 200 answer carries the name of the restaurant its
    [restaurant_id] points at. *)
Theorem recommend_items_name_their_restaurant
    (rt : Runtime) (db : Database) (payload : pyval)
    (log log' : list event) (res : list ItemJson.t) (item : ItemJson.t) :
  recommend rt db payload log = (Return res, log') -> In item res ->
  exists rid r,
    ItemJson.restaurant_id item = Some rid
    /\ find (fun r => (Restaurant.id r =? rid)%Z) (restaurants db) = Some r
    /\ ItemJson.restaurant_name item = Restaurant.name r.
Proof.
  intros H Hin.
  destruct (recommend_return _ _ _ _ _ _ H)
    as (t & w & b & g & rid & T & items & _ & _ & _ & _ & Hr & _).
  exact (render_names db items res item Hr Hin).
Qed.

Lemma recommend_items_name_their_restaurant_witness :
  exists rid r,
    ItemJson.restaurant_id salad_json = Some rid
    /\ find (fun r => (Restaurant.id r =? rid)%Z) two_restaurants = Some r
    /\ ItemJson.restaurant_name salad_json = Restaurant.name r.
Proof.
  apply (recommend_items_name_their_restaurant strict_runtime
           (Build_Database two_restaurants [salad; wrap]) (request "lose" (PInt 1))
           [] [SessionOpen; SessionClose] [salad_json] salad_json).
  - reflexivity.
  - left. reflexivity.
Defined.

(** *** Validation errors *)

Lemma read_payload_dict (rt : Runtime) (d : list (string * pyval)) :
  read_payload rt (PDict d) =
  obind (to_float (float_of_str rt) (field d "tall_cm")) (fun tall_cm =>
  obind (to_float (float_of_str rt) (field d "weight_kg")) (fun weight_kg =>
  obind (to_float (float_of_str rt) (field d "budget_usd")) (fun budget_usd =>
  obind (str_lower (field d "goal")) (fun goal =>
  Return (tall_cm, weight_kg, budget_usd, goal, field d "restaurant_id"))))).
Proof. reflexivity. Qed.

(** Nothing in the [try] block aborts the request by itself. *)
Lemma read_payload_no_http (rt : Runtime) (d : list (string * pyval)) (s : Z) (m : string) :
  read_payload rt (PDict d) <> HTTPError s m.
Proof.
  rewrite read_payload_dict. unfold to_float, str_lower, no_attribute.
  repeat match goal with
         | |- context [match ?x with _ => _ end] => destruct x; cbn [obind]
         end; discriminate.
Qed.

(** C9.  With the three numbers valid, a goal whose lowercase form is
    neither ["gain"] nor ["lose"] is answered by a 400 whose message names
    the goal. *)
Theorem recommend_rejects_unknown_goal
    (rt : Runtime) (db : Database) (d : list (string * pyval)) (log : list event)
    (goal : string) :
  numeric rt (field d "tall_cm") = true ->
  numeric rt (field d "weight_kg") = true ->
  numeric rt (field d "budget_usd") = true ->
  field d "goal" = PStr goal ->
  lower goal <> "gain" -> lower goal <> "lose" ->
  recommend rt db (PDict d) log = (HTTPError 400 "Goal must be 'gain' or 'lose'", log)
  /\ mentions "goal" "Goal must be 'gain' or 'lose'" = true.
Proof.
  unfold numeric. intros Ht Hw Hb Hg Hgain Hlose.
  split; [ | reflexivity ].
  unfold recommend.
  assert (Hd : truthy (PDict d) = true).
  { destruct d; [discriminate Hg | reflexivity]. }
  rewrite Hd. cbn [negb]. rewrite read_payload_dict, Hg.
  destruct (to_float (float_of_str rt) (field d "tall_cm")); try discriminate.
  destruct (to_float (float_of_str rt) (field d "weight_kg")); try discriminate.
  destruct (to_float (float_of_str rt) (field d "budget_usd")); try discriminate.
  cbn [obind str_lower].
  apply String.eqb_neq in Hgain, Hlose. rewrite Hgain, Hlose. reflexivity.
Qed.

Lemma recommend_rejects_unknown_goal_witness :
  recommend strict_runtime twelve_salads (request "maybe" PNone) []
  = (HTTPError 400 "Goal must be 'gain' or 'lose'", [])
  /\ mentions "goal" "Goal must be 'gain' or 'lose'" = true.
Proof.
  apply (recommend_rejects_unknown_goal strict_runtime twelve_salads
           [("tall_cm", PInt 175); ("weight_kg", PInt 70); ("budget_usd", PInt 12);
            ("goal", PStr "maybe"); ("restaurant_id", PNone)] [] "maybe");
    try reflexivity; discriminate.
Defined.

(** C6, as the code has it.  A request with a required field that is
    missing, not convertible by [float()] or outside the two goals is
    answered by a 400.  Its message is the text for a missing payload when
    the object is empty, the text that names the goal when the fields were
    read and the goal is not one of the two words, and otherwise
    ["Invalid payload: "] followed by the text of the exception that
    reading the fields raised. *)
Theorem recommend_rejects_invalid_fields
    (rt : Runtime) (db : Database) (d : list (string * pyval)) (log : list event) :
  fields_valid rt d = false ->
  exists msg,
    recommend rt db (PDict d) log = (HTTPError 400 msg, log)
    /\ ((d = [] /\ msg = "Missing JSON payload")
        \/ (exists tall_cm weight_kg budget_usd goal restaurant_id,
              read_payload rt (PDict d)
              = Return (tall_cm, weight_kg, budget_usd, goal, restaurant_id)
              /\ goal <> "gain" /\ goal <> "lose"
              /\ msg = "Goal must be 'gain' or 'lose'")
        \/ (d <> []
            /\ exists e, read_payload rt (PDict d) = Raise e
                         /\ msg = "Invalid payload: " ++ exc_str e)).
Proof.
  intros Hbad. unfold recommend.
  destruct d as [ | kv d' ] eqn:Ed.
  { exists "Missing JSON payload". split; [reflexivity | left; split; reflexivity]. }
  rewrite <- Ed in *. assert (Hd : truthy (PDict d) = true) by (subst d; reflexivity).
  rewrite Hd. cbn [negb].
  destruct (read_payload rt (PDict d)) as [ [[[[t w] b] g] rid] | s m | e ] eqn:Eread.
  - assert (Hg : String.eqb g "gain" || String.eqb g "lose" = false).
    { rewrite read_payload_dict in Eread. unfold fields_valid, numeric in Hbad.
      destruct (to_float (float_of_str rt) (field d "tall_cm")); try discriminate Eread.
      destruct (to_float (float_of_str rt) (field d "weight_kg")); try discriminate Eread.
      destruct (to_float (float_of_str rt) (field d "budget_usd")); try discriminate Eread.
      cbn [obind andb] in *.
      destruct (field d "goal") as [ | | | | g' | | ]; try discriminate Eread.
      cbn [str_lower obind in_enum] in *. apply Return_inj in Eread.
      injection Eread as _ _ _ <- _. exact Hbad. }
    rewrite Hg. cbn [negb lift].
    eexists. split; [reflexivity | right; left ].
    exists t, w, b, g, rid. apply orb_false_iff in Hg. destruct Hg as [Hg1 Hg2].
    apply String.eqb_neq in Hg1, Hg2. repeat split; assumption.
  - exfalso. exact (read_payload_no_http rt d s m Eread).
  - eexists. split; [reflexivity | right; right ].
    split; [subst d; discriminate | ]. exists e. split; reflexivity.
Qed.

Lemma recommend_rejects_invalid_fields_witness :
  fields_valid strict_runtime request_without_tall_cm = false
  /\ exists msg,
       recommend strict_runtime twelve_salads (PDict request_without_tall_cm) []
       = (HTTPError 400 msg, [])
       /\ ((request_without_tall_cm = [] /\ msg = "Missing JSON payload")
           \/ (exists tall_cm weight_kg budget_usd goal restaurant_id,
                 read_payload strict_runtime (PDict request_without_tall_cm)
                 = Return (tall_cm, weight_kg, budget_usd, goal, restaurant_id)
                 /\ goal <> "gain" /\ goal <> "lose"
                 /\ msg = "Goal must be 'gain' or 'lose'")
           \/ (request_without_tall_cm <> []
               /\ exists e, read_payload strict_runtime (PDict request_without_tall_cm)
                            = Raise e
                            /\ msg = "Invalid payload: " ++ exc_str e)).
Proof.
  split; [reflexivity | ].
  apply (recommend_rejects_invalid_fields strict_runtime twelve_salads
           request_without_tall_cm []).
  reflexivity.
Defined.

(** C6 as stated fails: with [tall_cm] missing the message is the text of
    the [TypeError] that [float(None)] raises, which names no field. *)
Lemma recommend_message_does_not_name_field :
  fields_valid strict_runtime request_without_tall_cm = false
  /\ recommend strict_runtime twelve_salads (PDict request_without_tall_cm) []
     = (HTTPError 400
          "Invalid payload: float() argument must be a string or a real number, not 'NoneType'",
        [])
  /\ mentions "tall_cm"
       "Invalid payload: float() argument must be a string or a real number, not 'NoneType'"
     = false.
Proof. repeat split. Qed.

(** *** A falsy [restaurant_id] *)

(** C10.  When [restaurant_id] is falsy (absent, null, 0, ...) the query
    has no restriction on the restaurant: its rows are the first ten of all
    the menu items within budget and in the calorie bracket, and the answer
    is their rendering. *)
Theorem recommend_falsy_restaurant_id_unrestricted
    (rt : Runtime) (db : Database) (payload : pyval) (log : list event)
    (tall_cm weight_kg budget_usd : float) (goal : string) (restaurant_id : pyval)
    (target_cal : Z) :
  read_payload rt payload = Return (tall_cm, weight_kg, budget_usd, goal, restaurant_id) ->
  goal = "gain" \/ goal = "lose" ->
  compute_target_calories weight_kg goal = Return target_cal ->
  truthy restaurant_id = false ->
  let rows := limit 10 (filter (in_bracket budget_usd target_cal) (menu_items db)) in
  run_query rt db restaurant_id budget_usd target_cal = Return rows
  /\ fst (recommend rt db payload log) = render db rows.
Proof.
  intros Hread Hgoal HT Hfalsy rows.
  assert (Hq : run_query rt db restaurant_id budget_usd target_cal = Return rows).
  { unfold run_query. rewrite Hfalsy. reflexivity. }
  split; [assumption | ].
  unfold recommend.
  assert (Hp : truthy payload = true).
  { destruct payload; try discriminate Hread. destruct d; [ | reflexivity ].
    cbn in Hread. discriminate Hread. }
  rewrite Hp, Hread. cbn [negb].
  assert (Hg : String.eqb goal "gain" || String.eqb goal "lose" = true).
  { destruct Hgoal as [-> | ->]; reflexivity. }
  rewrite Hg. cbn [negb]. unfold bind, lift, emit, ret.
  rewrite HT, Hq.
  destruct (render db rows); reflexivity.
Qed.

(** With [restaurant_id] 0 the answer holds the rows of both restaurants. *)
Lemma recommend_falsy_restaurant_id_unrestricted_witness :
  run_query strict_runtime (Build_Database two_restaurants [salad; wrap]) (PInt 0)
    (float_of_Z 12) 1148
  = Return [salad; wrap]
  /\ fst (recommend strict_runtime (Build_Database two_restaurants [salad; wrap])
            (request "lose" (PInt 0)) [])
     = render (Build_Database two_restaurants [salad; wrap]) [salad; wrap].
Proof.
  apply (recommend_falsy_restaurant_id_unrestricted strict_runtime
           (Build_Database two_restaurants [salad; wrap]) (request "lose" (PInt 0)) []
           (float_of_Z 175) (float_of_Z 70) (float_of_Z 12) "lose" (PInt 0) 1148);
    try reflexivity.
  right. reflexivity.
Defined.

End AppProofs.

(** ** The plan-generation service *)

Module MainAppProofs.
Import Py MainApp MainAppSpec Util StringSpec StringFacts.

Lemma hf_calls_app (l1 l2 : list event) :
  hf_calls (l1 ++ l2)%list = (hf_calls l1 + hf_calls l2)%nat.
Proof.
  induction l1 as [ | [ | | p ] l1 IH ]; cbn [hf_calls app]; rewrite ?IH; reflexivity.
Qed.

Lemma recommend_endpoint_connected (w : World) (req : RecommendationRequest)
    (conn : Connection) (log : list event) :
  connect w = Some conn ->
  recommend_endpoint w req log =
  (fst (recommend w req conn (log ++ [Connect])%list),
   (snd (recommend w req conn (log ++ [Connect])%list) ++ [Close])%list).
Proof.
  intros Hc. unfold recommend_endpoint, get_db. rewrite Hc.
  unfold bind, emit, finally. cbn [fst snd].
  destruct (recommend w req conn (log ++ [Connect])%list) as [o log']. reflexivity.
Qed.

(** C7.  When no item is within budget the endpoint answers 404 and the
    log of the request holds no call to the inference endpoint. *)
Theorem recommend_no_items_404 (w : World) (req : RecommendationRequest)
    (conn : Connection) (log : list event) :
  connect w = Some conn ->
  fetch_affordable_items w conn (daily_budget_egp (profile req)) = [] ->
  recommend_endpoint w req log
  = (HTTPError 404 "No menu items within budget", (log ++ [Connect; Close])%list)
  /\ hf_calls (snd (recommend_endpoint w req log)) = hf_calls log.
Proof.
  intros Hc Hitems.
  assert (E : recommend_endpoint w req log
              = (HTTPError 404 "No menu items within budget",
                 (log ++ [Connect; Close])%list)).
  { rewrite (recommend_endpoint_connected w req conn log Hc).
    unfold recommend. rewrite Hitems. cbn [lift fst snd].
    rewrite <- app_assoc. reflexivity. }
  split; [exact E | ].
  rewrite E. cbn [snd]. rewrite hf_calls_app. cbn. lia.
Qed.

Lemma recommend_with_items (w : World) (req : RecommendationRequest)
    (conn : Connection) (log : list event) :
  items_of w req conn <> [] ->
  recommend w req conn log =
  bind (call_hf w (prompt_of w req conn)) (fun llm_answer =>
    match llm_answer with
    | PStr llm_answer =>
        ret {| email_body :=
                 if startswith llm_answer (prompt_of w req conn)
                 then strip (drop (String.length (prompt_of w req conn)) llm_answer)
                 else llm_answer |}
    | v => lift (no_attribute v "startswith")
    end) log.
Proof.
  intros Hne. unfold recommend, prompt_of, items_of in *.
  destruct (fetch_affordable_items w conn (daily_budget_egp (profile req)));
    [contradiction | reflexivity].
Qed.

(** C3, as the code has it.  A reply of the inference endpoint that is
    not a success ends the request at once, after exactly one call: a 429
    as the HTTP error 429 with the quota message, any other status as the
    exception that carries this status, which no handler catches, so that
    the caller is answered 500. *)
Theorem upstream_failure_surfaced (w : World) (req : RecommendationRequest)
    (conn : Connection) (log : list event) (status_code : Z) (json : option pyval) :
  connect w = Some conn ->
  items_of w req conn <> [] ->
  hf_post w (prompt_of w req conn) = Reply status_code json ->
  is_success status_code = false ->
  recommend_endpoint w req log
  = (if (status_code =? 429)%Z
     then HTTPError 429 "HF free‑tier token quota exceeded"
     else Raise (HTTPStatusError status_code),
     (log ++ [Connect; HFPost (prompt_of w req conn); Close])%list)
  /\ status_answered (fst (recommend_endpoint w req log))
     = (if (status_code =? 429)%Z then 429 else 500)
  /\ hf_calls (snd (recommend_endpoint w req log)) = S (hf_calls log).
Proof.
  intros Hc Hne Hreply Hfail.
  assert (E : recommend_endpoint w req log
              = (if (status_code =? 429)%Z
                 then HTTPError 429 "HF free‑tier token quota exceeded"
                 else Raise (HTTPStatusError status_code),
                 (log ++ [Connect; HFPost (prompt_of w req conn); Close])%list)).
  { rewrite (recommend_endpoint_connected w req conn log Hc).
    rewrite (recommend_with_items w req conn _ Hne).
    unfold call_hf. unfold bind, emit, lift. rewrite Hreply, Hfail. cbn [negb].
    destruct (status_code =? 429)%Z; cbn [fst snd];
      rewrite <- !app_assoc; reflexivity. }
  split; [exact E | ].
  rewrite E. cbn [fst snd]. split.
  - destruct (status_code =? 429)%Z; reflexivity.
  - rewrite hf_calls_app. cbn. lia.
Qed.

(** C3 as stated fails: a 503 of the inference endpoint leaves the handler
    as an exception, and the caller is answered 500, not 503. *)
Lemma upstream_status_not_carried :
  hf_post (world_of (Some cairo) unavailable)
    (prompt_of (world_of (Some cairo) unavailable) (request 50) cairo)
  = Reply 503 None
  /\ fst (recommend_endpoint (world_of (Some cairo) unavailable) (request 50) [])
     = Raise (HTTPStatusError 503)
  /\ status_answered
       (fst (recommend_endpoint (world_of (Some cairo) unavailable) (request 50) []))
     <> 503.
Proof.
  split; [reflexivity | ]. split; [reflexivity | ].
  intros H. vm_compute in H. discriminate H.
Qed.

(** C2.  When the inference call returns a text, the handler answers with
    an [email_body] that is: the rest of the text without the white space
    around it, if the text is the prompt followed by this rest; the text
    itself, unchanged, if the text does not start with the prompt. *)
Theorem email_body_strips_echoed_prompt (w : World) (req : RecommendationRequest)
    (conn : Connection) (log log' : list event) (text : string) :
  items_of w req conn <> [] ->
  call_hf w (prompt_of w req conn) log = (Return (PStr text), log') ->
  exists body,
    recommend w req conn log = (Return {| email_body := body |}, log')
    /\ (forall rest, text = prompt_of w req conn ++ rest ->
                     body = strip rest /\ stripped rest body)
    /\ ((forall rest, text <> prompt_of w req conn ++ rest) -> body = text).
Proof.
  intros Hne Hcall.
  rewrite (recommend_with_items w req conn log Hne).
  unfold bind. rewrite Hcall. unfold ret.
  eexists. split; [reflexivity | ].
  exact (strip_echo_spec (prompt_of w req conn) text).
Qed.

(** Where the budget is a number, the store's comparison is the one of
    binary64 floats. *)
Lemma pg_le_fleb (p budget : float) :
  budget <> S754_nan -> pg_le p budget = true -> fleb p budget = true.
Proof.
  intros Hb H.
  destruct budget as [ sb | sb | | sb mb eb ]; try contradiction;
    destruct p as [ sp | sp | | sp mp ep ]; first [exact H | discriminate H].
Qed.

Lemma fleb_pg_le (p budget : float) : fleb p budget = true -> pg_le p budget = true.
Proof.
  intros H.
  destruct budget as [ sb | sb | | sb mb eb ];
    destruct p as [ sp | sp | | sp mp ep ]; first [exact H | reflexivity | discriminate H].
Qed.

(** Every item [fetch_affordable_items] returns for a budget that is a
    number (not NaN) costs at most the budget. *)
Theorem fetched_items_within_budget (w : World) (conn : Connection) (budget : float)
    (it : Item.t) :
  budget <> S754_nan ->
  In it (fetch_affordable_items w conn budget) -> fleb (Item.price it) budget = true.
Proof.
  unfold fetch_affordable_items. intros Hnum Hin.
  apply in_map_iff in Hin. destruct Hin as (row & <- & Hin). cbn [Item.price].
  assert (Hrow : In row (affordable_rows conn budget)).
  { apply (Permutation_in _ (random_order_perm w _)).
    exact (In_firstn _ _ _ Hin). }
  unfold affordable_rows in Hrow.
  apply in_flat_map in Hrow. destruct Hrow as (m & _ & Hrow).
  apply in_flat_map in Hrow. destruct Hrow as (r & _ & Hrow).
  destruct (m_restaurant_id m) as [ rid | ]; [ | contradiction ].
  destruct (m_price_egp m) as [ p | ]; [ | contradiction ].
  destruct ((rid =? r_id r)%Z && pg_le p budget) eqn:E; [ | contradiction ].
  destruct Hrow as [<- | []]. cbn [Item.price].
  apply andb_true_iff in E. destruct E as [_ E]. exact (pg_le_fleb _ _ Hnum E).
Qed.

Lemma fetched_items_within_budget_witness :
  fleb (float_of_Z 25) (float_of_Z 50) = true.
Proof.
  apply (fetched_items_within_budget (world_of (Some cairo) echo) cairo (float_of_Z 50)
           (Item.mk (Some "Koshary House") (Some "Koshary") None (float_of_Z 25))).
  - intros H. vm_compute in H. discriminate H.
  - left. reflexivity.
Defined.

(** A request posts to the inference endpoint at most once, whatever the
    endpoint answers. *)
Theorem at_most_one_inference_call (w : World) (req : RecommendationRequest)
    (log : list event) :
  (hf_calls (snd (recommend_endpoint w req log)) <= S (hf_calls log))%nat.
Proof.
  assert (Hh : forall conn l,
             (hf_calls (snd (recommend w req conn l)) <= S (hf_calls l))%nat).
  { intros conn l. unfold recommend.
    destruct (fetch_affordable_items w conn _); [cbn; lia | ].
    unfold call_hf. unfold bind, emit, lift, ret.
    set (prompt := build_prompt _ _ _).
    assert (E : (hf_calls (l ++ [HFPost prompt])%list <= S (hf_calls l))%nat).
    { rewrite hf_calls_app. cbn. lia. }
    destruct (hf_post w prompt) as [ | status json ]; [exact E | ].
    destruct (status =? 429)%Z; [exact E | ].
    destruct (negb (is_success status)); [exact E | ].
    destruct json as [ body | ]; [ | exact E ].
    destruct (obind (getitem_0 body) _) as [ [ | | | | | | ] | | ]; exact E. }
  destruct (connect w) as [ conn | ] eqn:Hc.
  - rewrite (recommend_endpoint_connected w req conn log Hc). cbn [snd].
    rewrite hf_calls_app. specialize (Hh conn (log ++ [Connect])%list).
    rewrite hf_calls_app in Hh. cbn in *. lia.
  - unfold recommend_endpoint, get_db. rewrite Hc. cbn. lia.
Qed.

Lemma recommend_no_items_404_witness :
  recommend_endpoint (world_of (Some cairo) echo) (request 10) []
  = (HTTPError 404 "No menu items within budget", [Connect; Close])
  /\ hf_calls (snd (recommend_endpoint (world_of (Some cairo) echo) (request 10) [])) = 0%nat.
Proof.
  apply (recommend_no_items_404 (world_of (Some cairo) echo) (request 10) cairo []);
    reflexivity.
Defined.

Lemma upstream_failure_surfaced_witness :
  (recommend_endpoint (world_of (Some cairo) unavailable) (request 50) []
   = (Raise (HTTPStatusError 503),
      [Connect; HFPost (prompt_of (world_of (Some cairo) unavailable) (request 50) cairo);
       Close])
   /\ status_answered
        (fst (recommend_endpoint (world_of (Some cairo) unavailable) (request 50) []))
      = 500
   /\ hf_calls (snd (recommend_endpoint (world_of (Some cairo) unavailable) (request 50) []))
      = 1%nat)
  /\ (recommend_endpoint (world_of (Some cairo) out_of_quota) (request 50) []
      = (HTTPError 429 "HF free‑tier token quota exceeded",
         [Connect; HFPost (prompt_of (world_of (Some cairo) out_of_quota) (request 50) cairo);
          Close])
      /\ status_answered
           (fst (recommend_endpoint (world_of (Some cairo) out_of_quota) (request 50) []))
         = 429
      /\ hf_calls (snd (recommend_endpoint (world_of (Some cairo) out_of_quota)
                          (request 50) []))
         = 1%nat).
Proof.
  split.
  - apply (upstream_failure_surfaced (world_of (Some cairo) unavailable) (request 50) cairo
             [] 503 None); try reflexivity.
    vm_compute. discriminate.
  - apply (upstream_failure_surfaced (world_of (Some cairo) out_of_quota) (request 50) cairo
             [] 429 None); try reflexivity.
    vm_compute. discriminate.
Defined.

Lemma email_body_strips_echoed_prompt_witness :
  (exists body,
     recommend (world_of (Some cairo) echo) (request 50) cairo []
     = (Return {| email_body := body |},
        [HFPost (prompt_of (world_of (Some cairo) echo) (request 50) cairo)])
     /\ (forall rest,
           prompt_of (world_of (Some cairo) echo) (request 50) cairo
           ++ newline ++ "Eat well." ++ newline
           = prompt_of (world_of (Some cairo) echo) (request 50) cairo ++ rest ->
           body = strip rest /\ stripped rest body)
     /\ ((forall rest,
            prompt_of (world_of (Some cairo) echo) (request 50) cairo
            ++ newline ++ "Eat well." ++ newline
            <> prompt_of (world_of (Some cairo) echo) (request 50) cairo ++ rest) ->
         body = prompt_of (world_of (Some cairo) echo) (request 50) cairo
                ++ newline ++ "Eat well." ++ newline))
  /\ (exists body,
        recommend (world_of (Some cairo) PlanSpec.plain) (request 50) cairo []
        = (Return {| email_body := body |},
           [HFPost (prompt_of (world_of (Some cairo) PlanSpec.plain) (request 50) cairo)])
        /\ (forall rest,
              "Eat well."
              = prompt_of (world_of (Some cairo) PlanSpec.plain) (request 50) cairo ++ rest ->
              body = strip rest /\ stripped rest body)
        /\ ((forall rest,
               "Eat well."
               <> prompt_of (world_of (Some cairo) PlanSpec.plain) (request 50) cairo
                  ++ rest) ->
            body = "Eat well.")).
Proof.
  split.
  - apply (email_body_strips_echoed_prompt (world_of (Some cairo) echo) (request 50) cairo
             [] _ (prompt_of (world_of (Some cairo) echo) (request 50) cairo
                   ++ newline ++ "Eat well." ++ newline)).
    + vm_compute. discriminate.
    + reflexivity.
  - apply (email_body_strips_echoed_prompt (world_of (Some cairo) PlanSpec.plain)
             (request 50) cairo [] _ "Eat well.").
    + vm_compute. discriminate.
    + reflexivity.
Defined.

End MainAppProofs.

(** ** Both services *)

Module Services.
Import Py AppSpec MainAppSpec Util.

(** *** Result caps *)

Lemma render_length (db : App.Database) (items : list App.MenuItem.t) :
  forall res, App.render db items = Return res -> List.length res = List.length items.
Proof.
  intros res H. symmetry.
  exact (Forall2_length (AppProofs.render_Forall2 db items res H)).
Qed.

Lemma run_query_length (rt : App.Runtime) (db : App.Database) (rid : pyval)
    (b : float) (T : Z) (items : list App.MenuItem.t) :
  App.run_query rt db rid b T = Return items -> (List.length items <= 10)%nat.
Proof.
  unfold App.run_query. intros H.
  destruct (truthy rid);
    [ destruct (App.restaurant_id_eq rt rid); [ | discriminate ] | ];
    cbn [obind] in H; apply Return_inj in H; subst items;
    apply firstn_le_length.
Qed.

(** C8.  A 200 answer of the catalog [/recommend] has at most 10 elements,
    and [fetch_affordable_items] returns at most 30 items. *)
Theorem result_caps
    (rt : App.Runtime) (db : App.Database) (payload : pyval)
    (log log' : list App.event) (res : list App.ItemJson.t)
    (w : MainApp.World) (conn : MainApp.Connection) (budget : float) :
  App.recommend rt db payload log = (Return res, log') ->
  (List.length res <= 10)%nat
  /\ (List.length (MainApp.fetch_affordable_items w conn budget) <= 30)%nat.
Proof.
  intros H. split.
  - destruct (AppProofs.recommend_return _ _ _ _ _ _ H)
      as (t & wt & b & g & rid & T & items & _ & _ & _ & Hq & Hr & _).
    rewrite (render_length _ _ _ Hr). exact (run_query_length _ _ _ _ _ _ Hq).
  - unfold MainApp.fetch_affordable_items. rewrite length_map. apply firstn_le_length.
Qed.

(** Twelve rows match and ten come back. *)
Lemma result_caps_witness :
  App.recommend strict_runtime twelve_salads (AppSpec.request "lose" PNone) []
  = (Return (repeat salad_json 10), [App.SessionOpen; App.SessionClose])
  /\ (List.length (repeat salad_json 10) <= 10)%nat
  /\ (List.length (MainApp.fetch_affordable_items (world_of None echo) cairo (float_of_Z 50))
      <= 30)%nat.
Proof.
  split; [reflexivity | ].
  apply (result_caps strict_runtime twelve_salads (AppSpec.request "lose" PNone) []
           [App.SessionOpen; App.SessionClose] (repeat salad_json 10)
           (world_of None echo) cairo (float_of_Z 50)).
  reflexivity.
Defined.

(** *** Release of the session and of the connection *)

Lemma open_sessions_app (l1 l2 : list App.event) :
  open_sessions (l1 ++ l2)%list = open_sessions l1 + open_sessions l2.
Proof. induction l1 as [ | [ | ] l1 IH ]; cbn [open_sessions app]; lia. Qed.

Lemma open_connections_app (l1 l2 : list MainApp.event) :
  open_connections (l1 ++ l2)%list = open_connections l1 + open_connections l2.
Proof. induction l1 as [ | [ | | p ] l1 IH ]; cbn [open_connections app]; lia. Qed.

(** The handler of the plan service only adds calls to the endpoint. *)
Lemma recommend_keeps_connections (w : MainApp.World) (req : MainApp.RecommendationRequest)
    (conn : MainApp.Connection) (log : list MainApp.event) :
  open_connections (snd (MainApp.recommend w req conn log)) = open_connections log.
Proof.
  unfold MainApp.recommend.
  destruct (MainApp.fetch_affordable_items w conn _); [reflexivity | ].
  unfold MainApp.call_hf. unfold bind, emit, lift, ret.
  set (prompt := MainApp.build_prompt _ _ _).
  assert (E : open_connections (log ++ [MainApp.HFPost prompt])%list = open_connections log).
  { rewrite open_connections_app. cbn. lia. }
  destruct (MainApp.hf_post w prompt) as [ | status json ]; [exact E | ].
  destruct (status =? 429)%Z; [exact E | ].
  destruct (negb (MainApp.is_success status)); [exact E | ].
  destruct json as [ body | ]; [ | exact E ].
  destruct (obind (getitem_0 body) _) as [ [ | | | | | | ] | | ]; exact E.
Qed.

Lemma recommend_endpoint_balanced (w : MainApp.World) (req : MainApp.RecommendationRequest)
    (log : list MainApp.event) :
  open_connections (snd (MainApp.recommend_endpoint w req log)) = open_connections log.
Proof.
  destruct (MainApp.connect w) as [ conn | ] eqn:Hc.
  - rewrite (MainAppProofs.recommend_endpoint_connected w req conn log Hc). cbn [snd].
    rewrite open_connections_app, recommend_keeps_connections, open_connections_app.
    cbn. lia.
  - unfold MainApp.recommend_endpoint, MainApp.get_db. rewrite Hc. reflexivity.
Qed.

Lemma get_restaurants_balanced (db : App.Database) (log : list App.event) :
  open_sessions (snd (App.get_restaurants db log)) = open_sessions log.
Proof.
  unfold App.get_restaurants, bind, emit, ret. cbn [snd].
  rewrite !open_sessions_app. cbn. lia.
Qed.

Lemma render_no_http (db : App.Database) (items : list App.MenuItem.t) (s : Z) (d : string) :
  App.render db items <> HTTPError s d.
Proof.
  revert s d. induction items as [ | i items IH ]; intros s d; cbn [App.render];
    [discriminate | ].
  destruct (App.restaurant_of db i); [ | discriminate ].
  destruct (App.render db items) as [ r | s' d' | e ]; cbn [obind];
    [discriminate | exfalso; exact (IH s' d' eq_refl) | discriminate ].
Qed.

Lemma run_query_no_http (rt : App.Runtime) (db : App.Database) (rid : pyval)
    (b : float) (T : Z) (s : Z) (d : string) :
  App.run_query rt db rid b T <> HTTPError s d.
Proof.
  unfold App.run_query.
  destruct (truthy rid); [destruct (App.restaurant_id_eq rt rid) | ]; discriminate.
Qed.

Lemma recommend_balanced (rt : App.Runtime) (db : App.Database) (payload : pyval)
    (log : list App.event) :
  (forall e, fst (App.recommend rt db payload log) <> Raise e) ->
  open_sessions (snd (App.recommend rt db payload log)) = open_sessions log.
Proof.
  unfold App.recommend.
  destruct (truthy payload); cbn [negb]; [ | reflexivity ].
  destruct (App.read_payload rt payload) as [ [[[[t w] b] g] rid] | s d | e ];
    [ | reflexivity | reflexivity ].
  destruct (negb _); [reflexivity | ].
  unfold bind, lift, emit, ret.
  destruct (App.compute_target_calories w g) as [ T | | ]; [ | reflexivity | reflexivity ].
  pose proof (run_query_no_http rt db rid b T) as Hq.
  destruct (App.run_query rt db rid b T) as [ items | s d | e ]; cbn [fst snd].
  - pose proof (render_no_http db items) as Hr.
    destruct (App.render db items) as [ res | s d | e ]; cbn [fst snd]; intros H.
    + rewrite !open_sessions_app. cbn. lia.
    + exfalso. exact (Hr s d eq_refl).
    + exfalso. exact (H e eq_refl).
  - exfalso. exact (Hq s d eq_refl).
  - intros H. exfalso. exact (H e eq_refl).
Qed.

(** A 400 of the catalog [/recommend] is decided before any session is
    opened. *)
Lemma recommend_error_opens_nothing (rt : App.Runtime) (db : App.Database) (payload : pyval)
    (log : list App.event) (s : Z) (d : string) :
  fst (App.recommend rt db payload log) = HTTPError s d ->
  snd (App.recommend rt db payload log) = log.
Proof.
  unfold App.recommend.
  destruct (truthy payload); cbn [negb]; [ | reflexivity ].
  destruct (App.read_payload rt payload) as [ [[[[t w] b] g] rid] | s' d' | e ];
    [ | reflexivity | reflexivity ].
  destruct (negb _); [reflexivity | ].
  unfold bind, lift, emit, ret.
  destruct (App.compute_target_calories w g) as [ T | | ]; [ | reflexivity | reflexivity ].
  pose proof (run_query_no_http rt db rid b T) as Hq.
  destruct (App.run_query rt db rid b T) as [ items | s' d' | e ]; cbn [fst snd].
  - pose proof (render_no_http db items) as Hr.
    destruct (App.render db items) as [ res | s' d' | e ]; cbn [fst snd]; intros H;
      try discriminate H.
    exfalso. exact (Hr s' d' eq_refl).
  - exfalso. exact (Hq s' d' eq_refl).
  - discriminate.
Qed.

(** C5, as the code has it.  The plan service closes the connection it
    opened however the request ends.  The catalog service closes the
    session it opened whenever the handler ends with an answer (200 or
    400), that is, whenever no exception leaves it; a 400 is decided
    before a session is opened. *)
Theorem sessions_released
    (w : MainApp.World) (req : MainApp.RecommendationRequest) (log1 : list MainApp.event)
    (rt : App.Runtime) (db : App.Database) (payload : pyval) (log2 : list App.event) :
  open_connections (snd (MainApp.recommend_endpoint w req log1)) = open_connections log1
  /\ open_sessions (snd (App.get_restaurants db log2)) = open_sessions log2
  /\ ((forall e, fst (App.recommend rt db payload log2) <> Raise e) ->
      open_sessions (snd (App.recommend rt db payload log2)) = open_sessions log2)
  /\ (forall s d, fst (App.recommend rt db payload log2) = HTTPError s d ->
      snd (App.recommend rt db payload log2) = log2).
Proof.
  split; [apply recommend_endpoint_balanced | ].
  split; [apply get_restaurants_balanced | ].
  split; [apply recommend_balanced | apply recommend_error_opens_nothing].
Qed.

Lemma sessions_released_witness :
  open_connections (snd (MainApp.recommend_endpoint (world_of (Some cairo) unavailable)
                           (MainAppSpec.request 50) [])) = 0
  /\ open_sessions (snd (App.get_restaurants twelve_salads [])) = 0
  /\ open_sessions (snd (App.recommend strict_runtime twelve_salads
                           (AppSpec.request "lose" PNone) [])) = 0.
Proof.
  destruct (sessions_released (world_of (Some cairo) unavailable) (MainAppSpec.request 50) []
              strict_runtime twelve_salads (AppSpec.request "lose" PNone) [])
    as (H1 & H2 & H3 & _).
  split; [exact H1 | split; [exact H2 | ] ].
  apply H3. intros e. vm_compute. discriminate.
Defined.

(** C5 as stated fails: a matching row without a restaurant makes the
    catalog handler raise after it opened the session, which stays open. *)
Lemma recommend_leaves_session_open :
  App.recommend strict_runtime (App.Build_Database one_restaurant [orphan])
    (AppSpec.request "lose" PNone) []
  = (Raise (AttributeError "'NoneType' object has no attribute 'name'"), [App.SessionOpen])
  /\ open_sessions [App.SessionOpen] = 1.
Proof. split; reflexivity. Qed.

End Services.

(* ================================================================== *)
(** * Part IV: further properties of the two services *)
(* ================================================================== *)

(** ** Lists *)

Module ListFacts.

Lemma firstn_short {A} (n : nat) (l : list A) :
  (List.length (firstn n l) < n)%nat -> firstn n l = l.
Proof.
  revert l. induction n as [ | n IH ]; intros [ | x l ] H; cbn in *; try lia; try reflexivity.
  f_equal. apply IH. lia.
Qed.

Lemma Forall2_In_l {A B} (R : A -> B -> Prop) (l : list A) (l' : list B) (a : A) :
  Forall2 R l l' -> In a l -> exists b, In b l' /\ R a b.
Proof.
  induction 1 as [ | x y l l' Hxy _ IH ]; intros Hin; [contradiction | ].
  destruct Hin as [-> | Hin].
  - exists y. split; [left; reflexivity | assumption].
  - destruct (IH Hin) as [b [Hb HR]]. exists b. split; [right | ]; assumption.
Qed.

Lemma Forall2_length' {A B} (R : A -> B -> Prop) (l : list A) (l' : list B) :
  Forall2 R l l' -> List.length l = List.length l'.
Proof. induction 1; cbn; congruence. Qed.
End ListFacts.

(** ** Rounding keeps a float above a bound that is itself a float *)

Module BoundFacts.
Import Py FloatSpec FloatFacts BoundSpec.

Lemma shr_fexp_atleast (T j m e : Z) (l : location) :
  1 <= T <= 2 ^ 53 -> -1074 <= j -> atleast T j m e ->
  atleast T j (shr_m (fst (shr_fexp prec emax m e l))) (snd (shr_fexp prec emax m e l)).
Proof.
  intros HT Hj (Hm & Hlo & Hhi).
  destruct (shr_fexp_spec m e l ltac:(lia)) as [-> ->].
  destruct m as [ | p | p ]; try lia.
  cbn [Zdigits2]. rewrite fexp_eq.
  pose proof (digits2_pos_bounds p) as [Hd2 _].
  set (d := Zpos (digits2_pos p)) in *.
  assert (Hd : 1 <= d) by (subst d; lia).
  set (n := Z.max 0 (Z.max (d + e - 53) (-1074) - e)).
  assert (Hn : 0 <= n) by (subst n; lia).
  pose proof (pow2_pos n Hn) as Hpn.
  destruct (Z.eq_dec n 0) as [Hn0 | Hn0].
  { rewrite Hn0, Z.pow_0_r, Z.div_1_r, Z.add_0_r. repeat split; assumption. }
  destruct (Z.le_gt_cases (e + n) j) as [Hle | Hgt].
  - assert (H2 : T * 2 ^ (j - (e + n)) <= Zpos p / 2 ^ n).
    { apply Z.div_le_lower_bound; [assumption | ].
      replace (2 ^ n * (T * 2 ^ (j - (e + n)))) with (T * (2 ^ n * 2 ^ (j - (e + n)))) by ring.
      rewrite <- Z.pow_add_r by lia.
      replace (n + (j - (e + n))) with (j - e) by lia. apply Hlo. lia. }
    pose proof (pow2_pos (j - (e + n)) ltac:(lia)).
    repeat split; [nia | intros _; assumption | lia].
  - assert (En : n = d - 53) by (subst n; lia).
    assert (H2 : 2 ^ 52 <= Zpos p / 2 ^ n).
    { apply Z.div_le_lower_bound; [assumption | ].
      rewrite <- Z.pow_add_r by lia.
      replace (n + 52) with (d - 1) by lia. assumption. }
    pose proof (pow2_pos 52 ltac:(lia)).
    repeat split; [lia | lia | intros _].
    assert (H3 : 2 ^ 1 <= 2 ^ (e + n - j)) by (apply Z.pow_le_mono_r; lia).
    change (2 ^ 53) with (2 ^ 52 * 2 ^ 1) in HT. nia.
Qed.

Lemma atleast_mono (T j m m' e : Z) : atleast T j m e -> m <= m' -> atleast T j m' e.
Proof.
  intros (Hm & Hlo & Hhi) Hle. repeat split; [lia | intros H; specialize (Hlo H); lia | ].
  intros H. specialize (Hhi H). pose proof (pow2_pos (e - j) ltac:(lia)). nia.
Qed.

Lemma binary_round_aux_atleast (T j m e : Z) (l : location) :
  1 <= T <= 2 ^ 53 -> -1074 <= j -> atleast T j m e ->
  float_atleast T j (binary_round_aux prec emax false m e l).
Proof.
  intros HT Hj Ha. unfold binary_round_aux.
  pose proof (shr_fexp_atleast T j m e l HT Hj Ha) as H1.
  destruct (shr_fexp prec emax m e l) as [mrs' e'] eqn:E1. cbn [fst snd] in H1.
  pose proof (atleast_mono _ _ _ _ _ H1
                (round_nearest_even_ge (shr_m mrs') (loc_of_shr_record mrs'))) as H2.
  pose proof (shr_fexp_atleast T j _ e' loc_Exact HT Hj H2) as H3.
  destruct (shr_fexp prec emax (round_nearest_even (shr_m mrs') (loc_of_shr_record mrs'))
              e' loc_Exact) as [mrs'' e''] eqn:E2.
  cbn [fst snd] in H3.
  destruct (shr_m mrs'') as [ | p | p ] eqn:E3.
  - destruct H3; lia.
  - destruct (e'' <=? emax - prec)%Z; cbn [float_atleast]; [assumption | exact I].
  - destruct H3; lia.
Qed.

Lemma atleast_align (T j : Z) (mx : positive) (ex ez : Z) :
  ez <= ex -> atleast T j (Zpos mx) ex -> atleast T j (Zpos mx * 2 ^ (ex - ez)) ez.
Proof.
  intros Hz (_ & Hlo & Hhi).
  pose proof (pow2_pos (ex - ez) ltac:(lia)) as Hp.
  repeat split; [lia | intros Hk | intros Hk].
  - destruct (Z.le_gt_cases ex j) as [Hle | Hgt].
    + specialize (Hlo Hle).
      replace (j - ez) with ((j - ex) + (ex - ez)) by lia.
      rewrite Z.pow_add_r by lia. nia.
    + specialize (Hhi Hgt).
      replace (ex - ez) with ((ex - j) + (j - ez)) by lia.
      rewrite Z.pow_add_r by lia.
      pose proof (pow2_pos (j - ez) ltac:(lia)). nia.
  - specialize (Hhi ltac:(lia)).
    replace (ex - j) with ((ex - ez) + (ez - j)) in Hhi by lia.
    rewrite Z.pow_add_r in Hhi by lia. lia.
Qed.

Lemma atmost_align (T j : Z) (mx : positive) (ex ez : Z) :
  ez <= ex -> atmost T j (Zpos mx) ex -> atmost T j (Zpos mx * 2 ^ (ex - ez)) ez.
Proof.
  intros Hz (Hlo & Hhi).
  pose proof (pow2_pos (ex - ez) ltac:(lia)) as Hp.
  split; intros Hk.
  - destruct (Z.le_gt_cases ex j) as [Hle | Hgt].
    + specialize (Hlo Hle).
      replace (j - ez) with ((j - ex) + (ex - ez)) by lia.
      rewrite Z.pow_add_r by lia. nia.
    + specialize (Hhi Hgt).
      replace (ex - ez) with ((ex - j) + (j - ez)) by lia.
      rewrite Z.pow_add_r by lia.
      pose proof (pow2_pos (j - ez) ltac:(lia)). nia.
  - specialize (Hhi ltac:(lia)).
    replace (ex - j) with ((ex - ez) + (ez - j)) in Hhi by lia.
    rewrite Z.pow_add_r in Hhi by lia. lia.
Qed.

Lemma binary_round_atleast (T j : Z) (m : positive) (e : Z) :
  1 <= T <= 2 ^ 53 -> -1074 <= j -> atleast T j (Zpos m) e ->
  float_atleast T j (binary_round prec emax false m e).
Proof.
  intros HT Hj Ha. unfold binary_round.
  pose proof (shl_align_spec m e (fexp prec emax (Zpos (digits2_pos m) + e))) as [Hs Hf].
  destruct (shl_align m e (fexp prec emax (Zpos (digits2_pos m) + e))) as [mz ez].
  cbn [fst snd] in Hs, Hf.
  apply binary_round_aux_atleast; [assumption | assumption | ].
  rewrite Hf, Hs. apply atleast_align; [lia | assumption].
Qed.


(** The sum of two floats that are at least [T1 * 2^j] and [T2 * 2^j]. *)
Lemma fadd_atleast (T1 T2 j : Z) (x y : float) :
  1 <= T1 -> 1 <= T2 -> T1 + T2 <= 2 ^ 53 -> -1074 <= j ->
  float_atleast T1 j x -> float_atleast T2 j y -> float_atleast (T1 + T2) j (fadd x y).
Proof.
  intros H1 H2 HT Hj Hx Hy.
  destruct x as [ sx | [ | ] | | [ | ] mx ex ]; cbn [float_atleast] in Hx; try contradiction;
    destruct y as [ sy | [ | ] | | [ | ] my ey ]; cbn [float_atleast] in Hy; try contradiction;
    try exact I.
  unfold fadd, SFadd.
  set (ez := Z.min ex ey).
  pose proof (shl_align_spec mx ex ez) as [_ Hfx].
  pose proof (shl_align_spec my ey ez) as [_ Hfy].
  replace (Z.min ex ez) with ez in Hfx by (subst ez; lia).
  replace (Z.min ey ez) with ez in Hfy by (subst ez; lia).
  cbn [cond_Zopp]. cbn [Z.add binary_normalize].
  apply binary_round_atleast; [lia | assumption | ].
  rewrite Pos2Z.inj_add, Hfx, Hfy.
  destruct (atleast_align T1 j mx ex ez ltac:(subst ez; lia) Hx) as (Px & Lx & Ux).
  destruct (atleast_align T2 j my ey ez ltac:(subst ez; lia) Hy) as (Py & Ly & Uy).
  repeat split; [lia | intros H; specialize (Lx H); specialize (Ly H); lia | ].
  intros H; specialize (Ux H); specialize (Uy H). lia.
Qed.

(** Adding a float that is not negative keeps a lower bound. *)
Lemma fadd_nonneg_atleast (T j : Z) (x y : float) :
  1 <= T <= 2 ^ 53 -> -1074 <= j ->
  nonneg x -> float_atleast T j y -> float_atleast T j (fadd x y).
Proof.
  intros HT Hj Hx Hy.
  destruct y as [ sy | [ | ] | | [ | ] my ey ]; cbn [float_atleast] in Hy; try contradiction;
    destruct x as [ sx | [ | ] | | [ | ] mx ex ]; cbn [nonneg] in Hx; try contradiction;
    try exact I; try exact Hy.
  unfold fadd, SFadd.
  set (ez := Z.min ex ey).
  pose proof (shl_align_spec my ey ez) as [_ Hfy].
  replace (Z.min ey ez) with ez in Hfy by (subst ez; lia).
  cbn [cond_Zopp]. cbn [Z.add binary_normalize].
  apply binary_round_atleast; [assumption | assumption | ].
  rewrite Pos2Z.inj_add.
  apply atleast_mono with (m := Zpos (fst (shl_align my ey ez))); [ | lia ].
  rewrite Hfy. apply atleast_align; [subst ez; lia | assumption].
Qed.

(** Taking a positive float that is at most [T2 * 2^j] away from one that
    is at least [T1 * 2^j]. *)
Lemma fsub_atleast (T1 T2 j : Z) (y : float) (mc : positive) (ec : Z) :
  T2 < T1 -> T1 - T2 <= 2 ^ 53 -> -1074 <= j ->
  float_atleast T1 j y -> atmost T2 j (Zpos mc) ec ->
  float_atleast (T1 - T2) j (fsub y (S754_finite false mc ec)).
Proof.
  intros H12 HT Hj Hy Hc.
  destruct y as [ sy | [ | ] | | [ | ] my ey ]; cbn [float_atleast] in Hy; try contradiction;
    try exact I.
  unfold fsub, SFsub. cbn [cond_Zopp].
  set (ez := Z.min ey ec).
  pose proof (shl_align_spec my ey ez) as [_ Hfy].
  pose proof (shl_align_spec mc ec ez) as [_ Hfc].
  replace (Z.min ey ez) with ez in Hfy by (subst ez; lia).
  replace (Z.min ec ez) with ez in Hfc by (subst ez; lia).
  destruct (atleast_align T1 j my ey ez ltac:(subst ez; lia) Hy) as (Py & Ly & Uy).
  destruct (atmost_align T2 j mc ec ez ltac:(subst ez; lia) Hc) as (Lc & Uc).
  rewrite <- Hfy in Py, Ly, Uy. rewrite <- Hfc in Lc, Uc.
  assert (Hd : atleast (T1 - T2) j
                 (Zpos (fst (shl_align my ey ez)) - Zpos (fst (shl_align mc ec ez))) ez).
  { destruct (Z.le_gt_cases ez j) as [Hle | Hgt].
    - specialize (Ly Hle). specialize (Lc Hle).
      pose proof (pow2_pos (j - ez) ltac:(lia)).
      repeat split; [nia | intros _; nia | lia].
    - specialize (Uy Hgt). specialize (Uc Hgt).
      pose proof (pow2_pos (ez - j) ltac:(lia)).
      repeat split; [nia | lia | intros _; nia]. }
  destruct (Zpos (fst (shl_align my ey ez)) - Zpos (fst (shl_align mc ec ez)))
    as [ | d | d ] eqn:Ed; try (destruct Hd; lia).
  cbn [binary_normalize].
  apply binary_round_atleast; [lia | assumption | assumption].
Qed.

(** Truncation of a float that is at least [T / 2^k]. *)
Lemma int_of_float_atleast (T k : Z) (x : float) (a : Z) :
  0 <= k -> float_atleast T (- k) x -> int_of_float x = Return a -> T / 2 ^ k <= a.
Proof.
  intros Hk Hx Ha.
  destruct x as [ sx | [ | ] | | [ | ] m e ]; cbn [float_atleast] in Hx; try contradiction;
    try discriminate Ha.
  cbn [int_of_float cond_Zopp] in Ha. apply Util.Return_inj in Ha. subst a.
  destruct Hx as (_ & Lo & Hi).
  pose proof (pow2_pos k Hk) as Hpk.
  destruct (Z.le_gt_cases e (- k)) as [Hle | Hgt].
  - rewrite Z.shiftl_div_pow2 by lia.
    specialize (Lo Hle).
    pose proof (pow2_pos (- e) ltac:(lia)) as Hpe.
    apply Z.div_le_lower_bound; [assumption | ].
    replace (- e) with (k + (- k - e)) by lia.
    rewrite Z.pow_add_r by lia.
    pose proof (Z.mul_div_le T (2 ^ k) Hpk).
    pose proof (pow2_pos (- k - e) ltac:(lia)). nia.
  - specialize (Hi Hgt).
    destruct (Z.le_gt_cases 0 e) as [He | He].
    + rewrite Z.shiftl_mul_pow2 by assumption.
      replace (e - - k) with (e + k) in Hi by lia.
      rewrite Z.pow_add_r in Hi by lia.
      apply Z.div_le_upper_bound; [assumption | ]. lia.
    + rewrite Z.shiftl_div_pow2 by lia.
      replace k with ((e - - k) + (- e)) at 1 by lia.
      rewrite Z.pow_add_r by lia.
      pose proof (pow2_pos (- e) ltac:(lia)) as Hpe.
      pose proof (pow2_pos (e - - k) ltac:(lia)) as Hpd.
      rewrite <- Z.div_div by lia.
      apply Z.div_le_mono; [assumption | ].
      apply Z.div_le_upper_bound; [assumption | ]. lia.
Qed.

End BoundFacts.

(** ** The catalog service, continued *)

Module CatalogProofs.
Import Py App FloatSpec FloatFacts AppSpec Util AppProofs Services.
Import BoundSpec BoundFacts CatalogSpec ListFacts.

(** *** compute_target_calories *)

(** For a positive weight the basal rate is at least 948.75, its value at
    weight zero: rounding never takes a sum below a bound that is itself a
    float. *)
Lemma RMR_atleast (weight_kg : float) :
  fltb (float_of_Z 0) weight_kg = true -> float_atleast 3795 (-2) (RMR weight_kg).
Proof.
  intros Hw. unfold RMR.
  eval_const (float_of_Z 10).
  eval_const (float_of_dyadic 25 (-2) * float_of_Z 175)%F.
  eval_const (float_of_Z (5 * 30)).
  eval_const (float_of_Z 5).
  change 3795 with (3775 + 20).
  apply fadd_atleast; [lia | lia | lia | lia | | ].
  - change 3775 with (4375 - 600).
    apply fsub_atleast; [lia | lia | lia | | ].
    + apply fadd_nonneg_atleast; [lia | lia | apply fmul_nonneg; assumption | ].
      split; [reflexivity | split; intros H; vm_compute; vm_compute in H; congruence].
    + split; intros H; vm_compute; vm_compute in H; congruence.
  - split; [reflexivity | split; intros H; vm_compute; vm_compute in H; congruence].
Qed.

Lemma fadd_neg_atleast (T1 T2 j : Z) (y : float) (mc : positive) (ec : Z) :
  T2 < T1 -> T1 - T2 <= 2 ^ 53 -> -1074 <= j ->
  float_atleast T1 j y -> atmost T2 j (Zpos mc) ec ->
  float_atleast (T1 - T2) j (fadd y (S754_finite true mc ec)).
Proof.
  intros H12 HT Hj Hy Hc.
  pose proof (fsub_atleast T1 T2 j y mc ec H12 HT Hj Hy Hc) as H.
  destruct y as [ sy | [ | ] | | [ | ] my ey ]; cbn [float_atleast] in Hy; try contradiction;
    exact H.
Qed.

(** The float [int()] truncates is at least 1448.75 for the goal
    ["gain"] and at least 448.75 for any other. *)
Lemma target_float_atleast (weight_kg : float) (goal : string) :
  fltb (float_of_Z 0) weight_kg = true ->
  float_atleast (if String.eqb goal "gain" then 5795 else 1795) (-2)
    (RMR weight_kg + float_of_Z (if String.eqb goal "gain" then 500 else -500))%F.
Proof.
  intros Hw. pose proof (RMR_atleast weight_kg Hw) as HR.
  destruct (String.eqb goal "gain").
  - change 5795 with (3795 + 2000).
    apply fadd_atleast; [lia | lia | lia | lia | assumption | ].
    split; [reflexivity | split; intros H; vm_compute; vm_compute in H; congruence].
  - change 1795 with (3795 - 2000).
    let v := eval vm_compute in (float_of_Z (-500)) in change (float_of_Z (-500)) with v.
    apply fadd_neg_atleast; [lia | lia | lia | assumption | ].
    split; intros H; vm_compute; vm_compute in H; congruence.
Qed.

(** For a positive weight the target is at least 448 kcal, and at least
    1448 kcal for the goal ["gain"]: the values at the smallest positive
    weight.  No rounding of the four float operations takes the result
    below them. *)
Theorem target_calories_at_least (weight_kg : float) (goal : string) (target : Z) :
  fltb (float_of_Z 0) weight_kg = true ->
  compute_target_calories weight_kg goal = Return target ->
  (if String.eqb goal "gain" then 1448 else 448) <= target.
Proof.
  intros Hw Ht. rewrite compute_target_calories_unfold in Ht.
  pose proof (int_of_float_atleast _ 2 _ _ ltac:(lia)
                (target_float_atleast weight_kg goal Hw) Ht) as H.
  destruct (String.eqb goal "gain"); exact H.
Qed.

Lemma target_calories_at_least_witness :
  (if String.eqb "lose" "gain" then 1448 else 448) <= 1148.
Proof.
  apply (target_calories_at_least (float_of_Z 70) "lose" 1148); reflexivity.
Defined.

Lemma compute_target_calories_not_finite (w : float) (g : string) :
  is_finite w = false -> compute_target_calories w g = Raise (not_finite_error w).
Proof.
  intros Hw. unfold compute_target_calories.
  destruct w as [ s | [ | ] | | s m e ]; try discriminate Hw;
    destruct (String.eqb g "gain"); vm_compute; reflexivity.
Qed.

(** *** POST /recommend *)

(** A payload whose fields were read is a dict that is not empty. *)
Lemma read_payload_truthy (rt : Runtime) (payload : pyval) v :
  read_payload rt payload = Return v -> truthy payload = true.
Proof.
  destruct payload as [ | b | z | f | s | l | [ | kv d ] ]; try discriminate; reflexivity.
Qed.

Lemma read_payload_never_aborts (rt : Runtime) (payload : pyval) (s : Z) (m : string) :
  read_payload rt payload <> HTTPError s m.
Proof.
  destruct payload as [ | b | z | f | s' | l | d ]; try discriminate.
  apply read_payload_no_http.
Qed.

Lemma compute_target_calories_never_aborts (w : float) (g : string) (s : Z) (m : string) :
  compute_target_calories w g <> HTTPError s m.
Proof.
  unfold compute_target_calories.
  match goal with |- int_of_float ?x <> _ => destruct x as [ | | | ] end; discriminate.
Qed.

(** What the handler does once the five fields are read and the goal is
    one of the two words. *)
Lemma recommend_valid (rt : Runtime) (db : Database) (payload : pyval) (log : list event)
    t w b g rid :
  read_payload rt payload = Return (t, w, b, g, rid) ->
  g = "gain" \/ g = "lose" ->
  recommend rt db payload log
  = (target_cal <- lift (compute_target_calories w g) ;;
     emit SessionOpen ;;;
     items <- lift (run_query rt db rid b target_cal) ;;
     res <- lift (render db items) ;;
     emit SessionClose ;;;
     ret res) log.
Proof.
  intros Hread Hg. unfold recommend.
  rewrite (read_payload_truthy _ _ _ Hread), Hread. cbn [negb].
  destruct Hg as [-> | ->]; reflexivity.
Qed.

(** [tall_cm] must be a number but its value changes nothing: two
    requests that differ only in a valid [tall_cm] get the same answer. *)
Theorem recommend_ignores_tall_cm (rt : Runtime) (db : Database)
    (d d' : list (string * pyval)) (log : list event) :
  numeric rt (field d "tall_cm") = true ->
  numeric rt (field d' "tall_cm") = true ->
  (forall key, key <> "tall_cm" -> field d key = field d' key) ->
  recommend rt db (PDict d) log = recommend rt db (PDict d') log.
Proof.
  intros H1 H2 Heq.
  assert (T1 : truthy (PDict d) = true) by (destruct d; [discriminate H1 | reflexivity]).
  assert (T2 : truthy (PDict d') = true) by (destruct d'; [discriminate H2 | reflexivity]).
  unfold recommend. rewrite T1, T2. cbn [negb].
  rewrite !read_payload_dict.
  rewrite <- (Heq "weight_kg"), <- (Heq "budget_usd"), <- (Heq "goal"),
    <- (Heq "restaurant_id") by discriminate.
  unfold numeric in H1, H2.
  destruct (to_float (float_of_str rt) (field d "tall_cm")); try discriminate H1.
  destruct (to_float (float_of_str rt) (field d' "tall_cm")); try discriminate H2.
  cbn [obind].
  destruct (to_float (float_of_str rt) (field d "weight_kg")); cbn [obind]; try reflexivity.
  destruct (to_float (float_of_str rt) (field d "budget_usd")); cbn [obind]; try reflexivity.
  destruct (str_lower (field d "goal")); cbn [obind]; reflexivity.
Qed.

Lemma recommend_ignores_tall_cm_witness :
  recommend strict_runtime twelve_salads (PDict (request_tall 150)) []
  = recommend strict_runtime twelve_salads (PDict (request_tall 200)) [].
Proof.
  apply (recommend_ignores_tall_cm strict_runtime twelve_salads
           (request_tall 150) (request_tall 200) []); try reflexivity.
  intros key Hk. unfold field, request_tall. cbn [assoc].
  destruct (String.eqb key "tall_cm") eqn:E; [ | reflexivity].
  apply String.eqb_eq in E. contradiction.
Defined.

(** A body that is not a JSON object is answered 400: a falsy one as
    a missing payload, any other with the text of the [AttributeError] of
    its missing [get]; no session is opened. *)
Theorem recommend_rejects_non_object (rt : Runtime) (db : Database) (payload : pyval)
    (log : list event) :
  (forall d, payload <> PDict d) ->
  recommend rt db payload log
  = (HTTPError 400
       (if truthy payload
        then "Invalid payload: '" ++ type_name payload ++ "' object has no attribute 'get'"
        else "Missing JSON payload"),
     log).
Proof.
  intros Hnd. unfold recommend.
  destruct payload as [ | b | z | f | s | l | d ];
    try (destruct (truthy _); reflexivity).
  exfalso. exact (Hnd d eq_refl).
Qed.

Lemma recommend_rejects_non_object_witness :
  recommend strict_runtime twelve_salads (PList [PInt 70]) []
  = (HTTPError 400 "Invalid payload: 'list' object has no attribute 'get'", []).
Proof.
  apply (recommend_rejects_non_object strict_runtime twelve_salads (PList [PInt 70]) []).
  intros d. discriminate.
Defined.

Lemma lower_ascii_idempotent (c : ascii) : lower_ascii (lower_ascii c) = lower_ascii c.
Proof. destruct c as [[] [] [] [] [] [] [] []]; reflexivity. Qed.

Lemma lower_idempotent (s : string) : lower (lower s) = lower s.
Proof.
  induction s as [ | c s IH ]; cbn [lower]; [reflexivity | ].
  rewrite lower_ascii_idempotent, IH. reflexivity.
Qed.

(** The goal is matched whatever the case of its letters: a request
    gets the answer of the same request with the goal in lowercase. *)
Theorem recommend_goal_case_insensitive (rt : Runtime) (db : Database)
    (d d' : list (string * pyval)) (goal : string) (log : list event) :
  field d "goal" = PStr goal ->
  field d' "goal" = PStr (lower goal) ->
  (forall key, key <> "goal" -> field d key = field d' key) ->
  recommend rt db (PDict d) log = recommend rt db (PDict d') log.
Proof.
  intros Hg Hg' Heq.
  assert (T1 : truthy (PDict d) = true) by (destruct d; [discriminate Hg | reflexivity]).
  assert (T2 : truthy (PDict d') = true) by (destruct d'; [discriminate Hg' | reflexivity]).
  unfold recommend. rewrite T1, T2. cbn [negb].
  rewrite !read_payload_dict.
  rewrite <- (Heq "tall_cm"), <- (Heq "weight_kg"), <- (Heq "budget_usd"),
    <- (Heq "restaurant_id") by discriminate.
  rewrite Hg, Hg'. cbn [str_lower]. rewrite lower_idempotent. reflexivity.
Qed.

Lemma recommend_goal_case_insensitive_witness :
  recommend strict_runtime twelve_salads (request "Lose" PNone) []
  = recommend strict_runtime twelve_salads (request "lose" PNone) [].
Proof.
  apply (recommend_goal_case_insensitive strict_runtime twelve_salads _ _ "Lose" []);
    try reflexivity.
  intros key Hk. unfold field. cbn [assoc].
  destruct (String.eqb key "goal") eqn:E; [ | reflexivity].
  apply String.eqb_eq in E. contradiction.
Defined.

(** Whatever the parsed body, the only HTTP error the handler aborts
    with is 400, with one of its three messages, and before any session is
    opened. *)
Theorem recommend_only_aborts_with_400 (rt : Runtime) (db : Database) (payload : pyval)
    (log log' : list event) (status : Z) (detail : string) :
  recommend rt db payload log = (HTTPError status detail, log') ->
  status = 400 /\ log' = log
  /\ (detail = "Missing JSON payload"
      \/ detail = "Goal must be 'gain' or 'lose'"
      \/ exists e, read_payload rt payload = Raise e
                   /\ detail = "Invalid payload: " ++ exc_str e).
Proof.
  unfold recommend.
  destruct (truthy payload); cbn [negb lift].
  2:{ intros H. inversion H. auto. }
  destruct (read_payload rt payload) as [ [[[[t w] b] g] rid] | s d | e ] eqn:Eread.
  - destruct (negb _).
    + intros H. inversion H. auto.
    + unfold bind, lift, emit, ret.
      destruct (compute_target_calories w g) as [ T | s d | e ] eqn:ET;
        [ | exfalso; exact (compute_target_calories_never_aborts _ _ _ _ ET)
          | discriminate ].
      unfold run_query.
      destruct (truthy rid); [destruct (restaurant_id_eq rt rid) | ]; cbn [obind];
        try discriminate;
        match goal with
        | |- context [render db ?l] =>
            pose proof (render_no_http db l) as Hr; destruct (render db l) as [ | s d | ]
        end; try discriminate; exfalso; exact (Hr s d eq_refl).
  - exfalso. exact (read_payload_never_aborts _ _ _ _ Eread).
  - intros H. inversion H. split; [reflexivity | split; [reflexivity | ] ].
    right. right. exists e. split; reflexivity.
Qed.

Lemma recommend_only_aborts_with_400_witness :
  400 = 400 /\ ([] : list event) = []
  /\ ("Goal must be 'gain' or 'lose'" = "Missing JSON payload"
      \/ "Goal must be 'gain' or 'lose'" = "Goal must be 'gain' or 'lose'"
      \/ exists e, read_payload strict_runtime (request "keep" PNone) = Raise e
                   /\ "Goal must be 'gain' or 'lose'" = "Invalid payload: " ++ exc_str e).
Proof.
  apply (recommend_only_aborts_with_400 strict_runtime twelve_salads (request "keep" PNone)
           [] [] 400 "Goal must be 'gain' or 'lose'").
  reflexivity.
Defined.
Lemma run_query_complete (rt : Runtime) (db : Database) (rid : pyval) (b : float) (T : Z)
    (items : list MenuItem.t) (i : MenuItem.t) :
  run_query rt db rid b T = Return items -> (List.length items < 10)%nat ->
  In i (menu_items db) -> matches rt rid b T i -> In i items.
Proof.
  unfold run_query, matches. intros H Hlen Hin [Hb Hr].
  destruct (truthy rid).
  - destruct (Hr eq_refl) as (test & Ht & Hc). rewrite Ht in H.
    cbn [obind] in H. apply Return_inj in H. subst items.
    unfold limit in *. rewrite (firstn_short _ _ Hlen).
    apply filter_In. split; [ | assumption ].
    apply filter_In. split; assumption.
  - cbn [obind] in H. apply Return_inj in H. subst items.
    unfold limit in *. rewrite (firstn_short _ _ Hlen).
    apply filter_In. split; assumption.
Qed.

(** An answer of fewer than ten elements leaves no matching row out:
    every menu item that passes the tests of the request is rendered in
    it. *)
Theorem recommend_complete_below_cap (rt : Runtime) (db : Database) (payload : pyval)
    (log log' : list event) (res : list ItemJson.t)
    (tall_cm weight_kg budget_usd : float) (goal : string) (restaurant_id : pyval)
    (target_cal : Z) (i : MenuItem.t) :
  recommend rt db payload log = (Return res, log') ->
  (List.length res < 10)%nat ->
  read_payload rt payload = Return (tall_cm, weight_kg, budget_usd, goal, restaurant_id) ->
  compute_target_calories weight_kg goal = Return target_cal ->
  In i (menu_items db) ->
  matches rt restaurant_id budget_usd target_cal i ->
  exists j, In j res /\ renders i j.
Proof.
  intros Hrec Hlen Hread HT Hin Hm.
  destruct (recommend_return _ _ _ _ _ _ Hrec)
    as (t & w & b & g & rid & T & items & Hread' & _ & HT' & Hq & Hr & _).
  rewrite Hread in Hread'. apply Return_inj in Hread'.
  injection Hread' as <- <- <- <- <-.
  rewrite HT in HT'. apply Return_inj in HT'. subst T.
  pose proof (render_Forall2 _ _ _ Hr) as HF.
  apply (Forall2_In_l _ _ _ _ HF).
  apply (run_query_complete _ _ _ _ _ _ _ Hq); try assumption.
  rewrite (Forall2_length' _ _ _ HF). assumption.
Qed.

Lemma recommend_complete_below_cap_witness :
  exists j, In j [salad_json; wrap_json] /\ renders wrap j.
Proof.
  apply (recommend_complete_below_cap strict_runtime salad_and_wrap (request "lose" PNone)
           [] [SessionOpen; SessionClose] [salad_json; wrap_json]
           (float_of_Z 175) (float_of_Z 70) (float_of_Z 12) "lose" PNone 1148 wrap).
  - reflexivity.
  - cbn. lia.
  - reflexivity.
  - reflexivity.
  - right. left. reflexivity.
  - split; [reflexivity | intros H; discriminate H].
Defined.

Lemma render_all (db : Database) (items : list MenuItem.t) :
  Forall (fun i => restaurant_of db i <> None) items ->
  exists res, render db items = Return res.
Proof.
  induction 1 as [ | i items Hi _ [res IH] ]; cbn [render].
  - exists []. reflexivity.
  - destruct (restaurant_of db i) as [ r | ]; [ | contradiction ].
    rewrite IH. cbn [obind]. eexists. reflexivity.
Qed.

Lemma render_some_missing (db : Database) (items : list MenuItem.t) :
  Exists (fun i => restaurant_of db i = None) items ->
  render db items = no_attribute PNone "name".
Proof.
  induction 1 as [ i items Hi | i items _ IH ]; cbn [render].
  - rewrite Hi. reflexivity.
  - destruct (restaurant_of db i); [ | reflexivity ]. rewrite IH. reflexivity.
Qed.

(** Once the fields are valid and the query has run, the answer is
    a 200 when every selected row has a restaurant, and the uncaught
    [AttributeError] of [i.restaurant.name], with the session left open,
    as soon as one selected row has none. *)
Theorem recommend_needs_restaurant_of_each_row (rt : Runtime) (db : Database)
    (payload : pyval) (log : list event)
    (tall_cm weight_kg budget_usd : float) (goal : string) (restaurant_id : pyval)
    (target_cal : Z) (items : list MenuItem.t) :
  read_payload rt payload = Return (tall_cm, weight_kg, budget_usd, goal, restaurant_id) ->
  goal = "gain" \/ goal = "lose" ->
  compute_target_calories weight_kg goal = Return target_cal ->
  run_query rt db restaurant_id budget_usd target_cal = Return items ->
  (Forall (fun i => restaurant_of db i <> None) items ->
   exists res, recommend rt db payload log
               = (Return res, (log ++ [SessionOpen; SessionClose])%list))
  /\ (Exists (fun i => restaurant_of db i = None) items ->
      recommend rt db payload log
      = (Raise (AttributeError "'NoneType' object has no attribute 'name'"),
         (log ++ [SessionOpen])%list)).
Proof.
  intros Hread Hg HT Hq.
  rewrite (recommend_valid _ _ _ _ _ _ _ _ _ Hread Hg).
  unfold bind, lift, emit, ret. rewrite HT, Hq.
  split; intros H.
  - destruct (render_all db items H) as [res Hr]. exists res.
    rewrite Hr, <- app_assoc. reflexivity.
  - rewrite (render_some_missing db items H). reflexivity.
Qed.

Lemma recommend_needs_restaurant_of_each_row_witness :
  (exists res, recommend strict_runtime salad_and_orphan (request "lose" (PInt 1)) []
               = (Return res, [SessionOpen; SessionClose]))
  /\ recommend strict_runtime salad_and_orphan (request "lose" PNone) []
     = (Raise (AttributeError "'NoneType' object has no attribute 'name'"), [SessionOpen]).
Proof.
  split.
  - apply (recommend_needs_restaurant_of_each_row strict_runtime salad_and_orphan
             (request "lose" (PInt 1)) [] (float_of_Z 175) (float_of_Z 70) (float_of_Z 12)
             "lose" (PInt 1) 1148 [salad]);
      [reflexivity | right; reflexivity | reflexivity | reflexivity | ].
    constructor; [vm_compute; discriminate | constructor].
  - apply (recommend_needs_restaurant_of_each_row strict_runtime salad_and_orphan
             (request "lose" PNone) [] (float_of_Z 175) (float_of_Z 70) (float_of_Z 12)
             "lose" PNone 1148 [salad; orphan]);
      [reflexivity | right; reflexivity | reflexivity | reflexivity | ].
    right. left. reflexivity.
Defined.

(** A weight that is NaN or an infinity passes the validation of the
    fields: with a valid goal the request ends with the uncaught exception
    of [int()], not with a 400, before a session is opened. *)
Theorem recommend_non_finite_weight_uncaught (rt : Runtime) (db : Database)
    (payload : pyval) (log : list event)
    (tall_cm weight_kg budget_usd : float) (goal : string) (restaurant_id : pyval) :
  read_payload rt payload = Return (tall_cm, weight_kg, budget_usd, goal, restaurant_id) ->
  goal = "gain" \/ goal = "lose" ->
  is_finite weight_kg = false ->
  recommend rt db payload log = (Raise (not_finite_error weight_kg), log).
Proof.
  intros Hread Hg Hw.
  rewrite (recommend_valid _ _ _ _ _ _ _ _ _ Hread Hg).
  unfold bind, lift. rewrite (compute_target_calories_not_finite _ _ Hw). reflexivity.
Qed.

Lemma recommend_non_finite_weight_uncaught_witness :
  recommend strict_runtime twelve_salads (request_weight (PFloat (S754_infinity false))) []
  = (Raise (OverflowError "cannot convert float infinity to integer"), []).
Proof.
  apply (recommend_non_finite_weight_uncaught strict_runtime twelve_salads
           (request_weight (PFloat (S754_infinity false))) []
           (float_of_Z 175) (S754_infinity false) (float_of_Z 12) "lose" PNone);
    [reflexivity | right; reflexivity | reflexivity].
Defined.

(** For a positive weight every element of a 200 answer has at
    least 248 kcal (1248 kcal for the goal ["gain"]). *)
Theorem recommend_items_calories_at_least (rt : Runtime) (db : Database) (payload : pyval)
    (log log' : list event) (res : list ItemJson.t)
    (tall_cm weight_kg budget_usd : float) (goal : string) (restaurant_id : pyval)
    (j : ItemJson.t) :
  recommend rt db payload log = (Return res, log') ->
  read_payload rt payload = Return (tall_cm, weight_kg, budget_usd, goal, restaurant_id) ->
  fltb (float_of_Z 0) weight_kg = true ->
  In j res ->
  exists calories,
    ItemJson.calories j = Some calories
    /\ (if String.eqb goal "gain" then 1248 else 248) <= calories.
Proof.
  intros Hrec Hread Hw Hin.
  destruct (recommend_return _ _ _ _ _ _ Hrec)
    as (t & w & b & g & rid & T & items & Hread' & _ & HT & Hq & Hr & _).
  rewrite Hread in Hread'. apply Return_inj in Hread'.
  injection Hread' as <- <- <- <- <-.
  rewrite compute_target_calories_unfold in HT.
  pose proof (int_of_float_atleast _ 2 _ _ ltac:(lia)
                (target_float_atleast weight_kg goal Hw) HT) as HB.
  destruct (Forall2_In_r _ _ _ _ (render_Forall2 _ _ _ Hr) Hin) as (i & Hi & Hc & _).
  destruct (run_query_In _ _ _ _ _ _ _ Hq Hi) as [Hbr _].
  destruct (in_bracket_spec _ _ _ Hbr) as (p & c & _ & Ec & _ & Habs).
  exists c. split; [congruence | ].
  destruct (String.eqb goal "gain");
    [change (1448 <= T) in HB | change (448 <= T) in HB]; lia.
Qed.

Lemma recommend_items_calories_at_least_witness :
  exists calories,
    ItemJson.calories salad_json = Some calories
    /\ (if String.eqb "lose" "gain" then 1248 else 248) <= calories.
Proof.
  apply (recommend_items_calories_at_least strict_runtime salad_and_wrap
           (request "lose" PNone) [] [SessionOpen; SessionClose] [salad_json; wrap_json]
           (float_of_Z 175) (float_of_Z 70) (float_of_Z 12) "lose" PNone salad_json).
  - reflexivity.
  - reflexivity.
  - reflexivity.
  - left. reflexivity.
Defined.

End CatalogProofs.

(** ** The plan-generation service, continued *)

Module PlanProofs.
Import Py MainApp MainAppSpec Util StringSpec StringFacts MainAppProofs PlanSpec.

(** *** Strings *)

Lemma contains_cons (sub : string) (c : ascii) (s : string) :
  AppSpec.contains sub (String c s)
  = String.prefix sub (String c s) || AppSpec.contains sub s.
Proof. cbn [AppSpec.contains]. destruct (String.prefix sub (String c s)); reflexivity. Qed.

Lemma contains_prefix (sub s : string) :
  String.prefix sub s = true -> AppSpec.contains sub s = true.
Proof. intros H. destruct s; cbn [AppSpec.contains]; rewrite H; reflexivity. Qed.

Lemma contains_append_r (sub a s : string) :
  AppSpec.contains sub s = true -> AppSpec.contains sub (a ++ s) = true.
Proof.
  intros H. induction a as [ | c a IH ]; [exact H | ].
  cbn [append]. rewrite contains_cons, IH. apply orb_true_r.
Qed.

Lemma prefix_append_l (sub s b : string) :
  String.prefix sub s = true -> String.prefix sub (s ++ b) = true.
Proof.
  revert s. induction sub as [ | c sub IH ]; intros s H; [destruct (s ++ b); reflexivity | ].
  destruct s as [ | c' s ]; [discriminate H | ]. cbn in *.
  destruct (ascii_dec c c'); [apply IH; assumption | discriminate H].
Qed.

Lemma contains_append_l (sub s b : string) :
  AppSpec.contains sub s = true -> AppSpec.contains sub (s ++ b) = true.
Proof.
  induction s as [ | c s IH ]; intros H.
  - apply contains_prefix. apply (prefix_append_l sub "" b).
    cbn [AppSpec.contains] in H. destruct (String.prefix sub ""); [reflexivity | discriminate H].
  - rewrite contains_cons in H. cbn [append]. rewrite contains_cons.
    apply orb_true_iff in H. apply orb_true_iff. destruct H as [H | H].
    + left. exact (prefix_append_l _ _ b H).
    + right. exact (IH H).
Qed.

Lemma append_empty_r (s : string) : s ++ "" = s.
Proof. induction s as [ | c s IH ]; cbn; [ | rewrite IH ]; reflexivity. Qed.

Lemma contains_join (sep x : string) (parts : list string) :
  In x parts -> AppSpec.contains x (join sep parts) = true.
Proof.
  induction parts as [ | p parts IH ]; intros Hin; [contradiction | ].
  destruct Hin as [-> | Hin].
  - destruct parts as [ | q parts ]; cbn [join].
    + apply contains_prefix. rewrite <- (append_empty_r x) at 2. apply prefix_append.
    + exact (contains_prefix _ _ (prefix_append x _)).
  - destruct parts as [ | q parts ]; [contradiction | ].
    change (join sep (p :: q :: parts)) with (p ++ sep ++ join sep (q :: parts)).
    apply contains_append_r, contains_append_r, IH, Hin.
Qed.

(** The prompt shows every item it is built from: the line of the
    table written for an item occurs in the prompt. *)
Theorem prompt_lists_every_item (w : World) (profile : UserProfile) (items : list Item.t)
    (it : Item.t) :
  In it items -> AppSpec.contains (table_row w it) (build_prompt w profile items) = true.
Proof.
  intros Hin. unfold build_prompt.
  apply contains_append_r, contains_append_r, contains_append_r, contains_append_l.
  apply contains_join. right. right.
  apply in_map_iff. exists it. split; [reflexivity | assumption].
Qed.

Lemma prompt_lists_every_item_witness :
  AppSpec.contains (table_row (world_of (Some cairo) echo) koshary)
    (build_prompt (world_of (Some cairo) echo) (profile (request 50)) [koshary]) = true.
Proof.
  apply (prompt_lists_every_item (world_of (Some cairo) echo) (profile (request 50))
           [koshary] koshary).
  left. reflexivity.
Defined.

(** *** The query *)

Lemma fetch_affordable_items_rows (w : World) (conn : Connection) (budget : float) :
  fetch_affordable_items w conn budget
  = firstn 30 (random_order w (affordable_rows conn budget)).
Proof.
  unfold fetch_affordable_items.
  induction (firstn 30 (random_order w (affordable_rows conn budget))) as [ | [r e a p] l IH ];
    cbn [map]; [reflexivity | rewrite IH; reflexivity].
Qed.

Lemma affordable_rows_In (conn : Connection) (budget : float) (it : Item.t) :
  In it (affordable_rows conn budget) <->
  exists m r p,
    In m (menu_item conn) /\ In r (restaurant conn)
    /\ m_restaurant_id m = Some (r_id r) /\ m_price_egp m = Some p
    /\ pg_le p budget = true /\ it = joined m r p.
Proof.
  unfold affordable_rows. split.
  - intros Hrow.
    apply in_flat_map in Hrow. destruct Hrow as (m & Hm & Hrow).
    apply in_flat_map in Hrow. destruct Hrow as (r & Hr & Hrow).
    destruct (m_restaurant_id m) as [ rid | ] eqn:Erid; [ | contradiction ].
    destruct (m_price_egp m) as [ p | ] eqn:Ep; [ | contradiction ].
    destruct ((rid =? r_id r)%Z && pg_le p budget) eqn:E; [ | contradiction ].
    destruct Hrow as [<- | []].
    apply andb_true_iff in E. destruct E as [E1 E2]. apply Z.eqb_eq in E1. subst rid.
    exists m, r, p. repeat split; assumption.
  - intros (m & r & p & Hm & Hr & Erid & Ep & Hle & ->).
    apply in_flat_map. exists m. split; [assumption | ].
    apply in_flat_map. exists r. split; [assumption | ].
    rewrite Erid, Ep, Z.eqb_refl, Hle. left. reflexivity.
Qed.

(** Every fetched item is a menu row joined with the restaurant its
    [restaurant_id] names: the query invents nothing, and a row without
    restaurant or without price is never offered. *)
Theorem fetched_items_come_from_the_join (w : World) (conn : Connection) (budget : float)
    (it : Item.t) :
  In it (fetch_affordable_items w conn budget) ->
  exists m r p,
    In m (menu_item conn) /\ In r (restaurant conn)
    /\ m_restaurant_id m = Some (r_id r) /\ m_price_egp m = Some p
    /\ it = joined m r p.
Proof.
  rewrite fetch_affordable_items_rows. intros Hin.
  apply In_firstn in Hin. apply (Permutation_in _ (random_order_perm w _)) in Hin.
  apply affordable_rows_In in Hin.
  destruct Hin as (m & r & p & Hm & Hr & Erid & Ep & _ & E).
  exists m, r, p. repeat split; assumption.
Qed.

Lemma fetched_items_come_from_the_join_witness :
  exists m r p,
    In m (menu_item cairo) /\ In r (restaurant cairo)
    /\ m_restaurant_id m = Some (r_id r) /\ m_price_egp m = Some p
    /\ koshary = joined m r p.
Proof.
  apply (fetched_items_come_from_the_join (world_of (Some cairo) echo) cairo (float_of_Z 50)
           koshary).
  left. reflexivity.
Defined.

(** While at most thirty joined rows are within budget, every one
    of them is fetched, whatever the random order. *)
Theorem fetch_is_complete_up_to_30 (w : World) (conn : Connection) (budget : float)
    (m : menu_item_row) (r : restaurant_row) (p : float) :
  (List.length (affordable_rows conn budget) <= 30)%nat ->
  In m (menu_item conn) -> In r (restaurant conn) ->
  m_restaurant_id m = Some (r_id r) -> m_price_egp m = Some p -> fleb p budget = true ->
  In (joined m r p) (fetch_affordable_items w conn budget).
Proof.
  intros Hlen Hm Hr Erid Ep Hle.
  rewrite fetch_affordable_items_rows, firstn_all2.
  - apply (Permutation_in _ (Permutation_sym (random_order_perm w _))).
    apply affordable_rows_In. exists m, r, p.
    repeat split; try assumption. apply fleb_pg_le. assumption.
  - rewrite (Permutation_length (random_order_perm w _)). assumption.
Qed.

Lemma fetch_is_complete_up_to_30_witness :
  In (joined {| m_restaurant_id := Some 1; m_item_en := Some "Koshary"; m_item_ar := None;
                m_price_egp := Some (float_of_Z 25) |}
        {| r_id := 1; r_name := Some "Koshary House" |} (float_of_Z 25))
     (fetch_affordable_items (world_of (Some cairo) echo) cairo (float_of_Z 50)).
Proof.
  apply (fetch_is_complete_up_to_30 (world_of (Some cairo) echo) cairo (float_of_Z 50)).
  - cbn. lia.
  - left. reflexivity.
  - left. reflexivity.
  - reflexivity.
  - reflexivity.
  - reflexivity.
Defined.

Lemma fetch_nil_iff (w : World) (conn : Connection) (budget : float) :
  fetch_affordable_items w conn budget = [] <-> affordable_rows conn budget = [].
Proof.
  rewrite fetch_affordable_items_rows.
  pose proof (random_order_perm w (affordable_rows conn budget)) as HP.
  split; intros H.
  - destruct (random_order w (affordable_rows conn budget)) as [ | x l ]; [ | discriminate H ].
    apply Permutation_nil in HP. assumption.
  - rewrite H in *. apply Permutation_sym, Permutation_nil in HP. rewrite HP. reflexivity.
Qed.

(** *** The handler *)

(** The ways [call_hf] ends. *)
Lemma call_hf_cases (w : World) (prompt : string) (log : list event) :
  snd (call_hf w prompt log) = (log ++ [HFPost prompt])%list
  /\ match fst (call_hf w prompt log) with
     | Return v =>
         exists status d rest,
           hf_post w prompt = Reply status (Some (PList (PDict d :: rest)))
           /\ is_success status = true /\ assoc "generated_text" d = Some v
     | HTTPError s d =>
         s = 429 /\ d = "HF free‑tier token quota exceeded"
         /\ exists json, hf_post w prompt = Reply 429 json
     | Raise _ => True
     end.
Proof.
  unfold call_hf. unfold bind, emit, lift.
  destruct (hf_post w prompt) as [ | status json ]; [split; [reflexivity | exact I] | ].
  destruct (status =? 429)%Z eqn:E429.
  { apply Z.eqb_eq in E429. subst status. cbn [fst snd].
    split; [reflexivity | ]. repeat split. exists json. reflexivity. }
  destruct (is_success status) eqn:Es; cbn [negb]; [ | split; [reflexivity | exact I] ].
  destruct json as [ body | ]; [ | split; [reflexivity | exact I] ].
  cbn [fst snd]. split; [reflexivity | ].
  destruct body as [ | b | z | f | [ | c s ] | [ | first rest ] | d ]; cbn; try exact I.
  destruct first as [ | b | z | f | s | l | d ]; cbn; try exact I.
  destruct (assoc "generated_text" d) as [ v | ] eqn:Ea; [ | exact I ].
  exists status, d, rest. repeat split; assumption.
Qed.

Lemma success_is_not_429 (status : Z) : is_success status = true -> (status =? 429)%Z = false.
Proof.
  unfold is_success. intros H. apply andb_true_iff in H. destruct H as [_ H].
  apply Z.leb_le in H. apply Z.eqb_neq. lia.
Qed.

(** The handler on a connection, when the inference endpoint answers with
    a text. *)
Lemma recommend_endpoint_text (w : World) (req : RecommendationRequest)
    (conn : Connection) (log : list event) (status : Z) (d : list (string * pyval))
    (rest : list pyval) (text : string) :
  connect w = Some conn ->
  items_of w req conn <> [] ->
  hf_post w (prompt_of w req conn) = Reply status (Some (PList (PDict d :: rest))) ->
  is_success status = true ->
  assoc "generated_text" d = Some (PStr text) ->
  recommend_endpoint w req log
  = (Return {| email_body :=
                 if startswith text (prompt_of w req conn)
                 then strip (drop (String.length (prompt_of w req conn)) text)
                 else text |},
     (log ++ [Connect; HFPost (prompt_of w req conn); Close])%list).
Proof.
  intros Hc Hne Hreply Hs Ha.
  rewrite (recommend_endpoint_connected w req conn log Hc).
  rewrite (recommend_with_items w req conn _ Hne).
  unfold call_hf. unfold bind, emit, lift, ret.
  rewrite Hreply, (success_is_not_429 _ Hs), Hs. cbn [negb getitem_0 obind getitem_str].
  rewrite Ha. cbn [fst snd]. rewrite <- !app_assoc. reflexivity.
Qed.

(** When the model echoes the prompt before its answer, the prompt is
    removed and the rest is stripped: the request gets the answer alone,
    without the white space around it, after one connection and one
    call. *)
Theorem echoed_prompt_is_removed (w : World) (req : RecommendationRequest)
    (conn : Connection) (log : list event) (status : Z) (d : list (string * pyval))
    (rest : list pyval) (answer : string) :
  connect w = Some conn ->
  items_of w req conn <> [] ->
  hf_post w (prompt_of w req conn) = Reply status (Some (PList (PDict d :: rest))) ->
  is_success status = true ->
  assoc "generated_text" d = Some (PStr (prompt_of w req conn ++ answer)) ->
  exists body,
    recommend_endpoint w req log
    = (Return {| email_body := body |},
       (log ++ [Connect; HFPost (prompt_of w req conn); Close])%list)
    /\ body = strip answer
    /\ stripped answer body.
Proof.
  intros Hc Hne Hreply Hs Ha.
  rewrite (recommend_endpoint_text w req conn log status d rest _ Hc Hne Hreply Hs Ha).
  eexists. split; [reflexivity | ].
  exact (proj1 (strip_echo_spec (prompt_of w req conn) (prompt_of w req conn ++ answer))
           answer eq_refl).
Qed.

Lemma echoed_prompt_is_removed_witness :
  exists body,
    recommend_endpoint (world_of (Some cairo) echo) (request 50) []
    = (Return {| email_body := body |},
       [Connect; HFPost (prompt_of (world_of (Some cairo) echo) (request 50) cairo); Close])
    /\ body = strip (newline ++ "Eat well." ++ newline)
    /\ stripped (newline ++ "Eat well." ++ newline) body.
Proof.
  apply (echoed_prompt_is_removed (world_of (Some cairo) echo) (request 50) cairo [] 200
           [("generated_text",
             PStr (prompt_of (world_of (Some cairo) echo) (request 50) cairo
                   ++ newline ++ "Eat well." ++ newline))] [] (newline ++ "Eat well." ++ newline)).
  - reflexivity.
  - vm_compute. discriminate.
  - reflexivity.
  - reflexivity.
  - reflexivity.
Defined.

(** The ways the handler ends on a connection. *)
Lemma recommend_cases (w : World) (req : RecommendationRequest) (conn : Connection)
    (log : list event) :
  match fst (recommend w req conn log) with
  | Return resp =>
      items_of w req conn <> []
      /\ snd (recommend w req conn log) = (log ++ [HFPost (prompt_of w req conn)])%list
      /\ exists status d rest text,
           hf_post w (prompt_of w req conn) = Reply status (Some (PList (PDict d :: rest)))
           /\ is_success status = true
           /\ assoc "generated_text" d = Some (PStr text)
           /\ email_body resp
              = (if startswith text (prompt_of w req conn)
                 then strip (drop (String.length (prompt_of w req conn)) text)
                 else text)
  | HTTPError s d =>
      (s = 404 /\ d = "No menu items within budget" /\ items_of w req conn = [])
      \/ (s = 429 /\ d = "HF free‑tier token quota exceeded"
          /\ items_of w req conn <> []
          /\ exists json, hf_post w (prompt_of w req conn) = Reply 429 json)
  | Raise _ => items_of w req conn <> []
  end.
Proof.
  destruct (items_of w req conn) as [ | it items ] eqn:Ei.
  - unfold recommend. unfold items_of in Ei. rewrite Ei. cbn. left. auto.
  - assert (Hne : items_of w req conn <> []) by (rewrite Ei; discriminate).
    rewrite (recommend_with_items w req conn log Hne). unfold bind.
    destruct (call_hf_cases w (prompt_of w req conn) log) as [Hlog Hout].
    destruct (call_hf w (prompt_of w req conn) log) as [ [ v | s d | e ] log' ];
      cbn [fst snd] in *.
    + destruct Hout as (status & d & rest & Hreply & Hs & Ha).
      destruct v as [ | b | z | f | text | l | d' ]; cbn [fst snd lift ret]; try discriminate.
      split; [discriminate | ]. split; [assumption | ].
      exists status, d, rest, text. repeat split; assumption.
    + destruct Hout as (-> & -> & json & Hreply). right.
      repeat split; [discriminate | exists json; assumption].
    + discriminate.
Qed.

(** For a request that reached the handler, the only HTTP errors raised
    are the 404 of an empty fetch and the 429 of a 429 reply of the
    inference endpoint. *)
Theorem endpoint_aborts_with_404_or_429 (w : World) (req : RecommendationRequest)
    (log : list event) (status : Z) (detail : string) :
  fst (recommend_endpoint w req log) = HTTPError status detail ->
  exists conn,
    connect w = Some conn
    /\ ((status = 404 /\ detail = "No menu items within budget"
         /\ items_of w req conn = [])
        \/ (status = 429 /\ detail = "HF free‑tier token quota exceeded"
            /\ exists json, hf_post w (prompt_of w req conn) = Reply 429 json)).
Proof.
  destruct (connect w) as [ conn | ] eqn:Hc.
  - rewrite (recommend_endpoint_connected w req conn log Hc). cbn [fst]. intros H.
    exists conn. split; [reflexivity | ].
    pose proof (recommend_cases w req conn (log ++ [Connect])%list) as Hcases.
    rewrite H in Hcases.
    destruct Hcases as [ (-> & -> & Hi) | (-> & -> & _ & Hj) ]; [left | right]; auto.
  - unfold recommend_endpoint, get_db. rewrite Hc. discriminate.
Qed.

Lemma endpoint_aborts_with_404_or_429_witness :
  exists conn,
    connect (world_of (Some cairo) out_of_quota) = Some conn
    /\ ((429 = 404 /\ "HF free‑tier token quota exceeded" = "No menu items within budget"
         /\ items_of (world_of (Some cairo) out_of_quota) (request 50) conn = [])
        \/ (429 = 429
            /\ "HF free‑tier token quota exceeded" = "HF free‑tier token quota exceeded"
            /\ exists json,
                 hf_post (world_of (Some cairo) out_of_quota)
                   (prompt_of (world_of (Some cairo) out_of_quota) (request 50) conn)
                 = Reply 429 json)).
Proof.
  apply (endpoint_aborts_with_404_or_429 (world_of (Some cairo) out_of_quota) (request 50) []
           429 "HF free‑tier token quota exceeded").
  reflexivity.
Defined.

(** The endpoint answers 404 exactly when no menu row joined with
    its restaurant is within the budget. *)
Theorem not_found_iff_nothing_affordable (w : World) (req : RecommendationRequest)
    (conn : Connection) (log : list event) :
  connect w = Some conn ->
  (exists detail, fst (recommend_endpoint w req log) = HTTPError 404 detail)
  <-> affordable_rows conn (daily_budget_egp (profile req)) = [].
Proof.
  intros Hc. rewrite <- (fetch_nil_iff w). fold (items_of w req conn).
  rewrite (recommend_endpoint_connected w req conn log Hc). cbn [fst].
  pose proof (recommend_cases w req conn (log ++ [Connect])%list) as Hcases.
  split.
  - intros [detail H]. rewrite H in Hcases.
    destruct Hcases as [ (_ & _ & Hi) | (E & _) ]; [assumption | discriminate E].
  - intros Hi. exists "No menu items within budget".
    unfold recommend. unfold items_of in Hi. rewrite Hi. reflexivity.
Qed.

Lemma not_found_iff_nothing_affordable_witness :
  (exists detail,
     fst (recommend_endpoint (world_of (Some cairo) echo) (request 10) [])
     = HTTPError 404 detail)
  <-> affordable_rows cairo (daily_budget_egp (profile (request 10))) = [].
Proof.
  apply (not_found_iff_nothing_affordable (world_of (Some cairo) echo) (request 10) cairo []).
  reflexivity.
Defined.

(** A 200 answer is given only after the inference endpoint replied
    with a success status and a JSON array whose first element is an
    object with a string [generated_text]; the body is the rest of that
    text without the white space around it if the text is the prompt
    followed by this rest, and the text itself if it does not start with
    the prompt. *)
Theorem ok_needs_generated_text (w : World) (req : RecommendationRequest)
    (log : list event) (resp : Response) :
  fst (recommend_endpoint w req log) = Return resp ->
  exists conn status d rest text,
    connect w = Some conn
    /\ items_of w req conn <> []
    /\ hf_post w (prompt_of w req conn) = Reply status (Some (PList (PDict d :: rest)))
    /\ is_success status = true
    /\ assoc "generated_text" d = Some (PStr text)
    /\ (forall answer, text = prompt_of w req conn ++ answer ->
                       email_body resp = strip answer /\ stripped answer (email_body resp))
    /\ ((forall answer, text <> prompt_of w req conn ++ answer) ->
        email_body resp = text).
Proof.
  destruct (connect w) as [ conn | ] eqn:Hc.
  - rewrite (recommend_endpoint_connected w req conn log Hc). cbn [fst]. intros H.
    pose proof (recommend_cases w req conn (log ++ [Connect])%list) as Hcases.
    rewrite H in Hcases.
    destruct Hcases as (Hne & _ & status & d & rest & text & Hreply & Hs & Ha & He).
    exists conn, status, d, rest, text.
    split; [reflexivity | ]. repeat (split; [assumption | ]).
    rewrite He. exact (strip_echo_spec (prompt_of w req conn) text).
  - unfold recommend_endpoint, get_db. rewrite Hc. discriminate.
Qed.

Lemma ok_needs_generated_text_witness :
  exists conn status d rest text,
    connect (world_of (Some cairo) plain) = Some conn
    /\ items_of (world_of (Some cairo) plain) (request 50) conn <> []
    /\ hf_post (world_of (Some cairo) plain)
         (prompt_of (world_of (Some cairo) plain) (request 50) conn)
       = Reply status (Some (PList (PDict d :: rest)))
    /\ is_success status = true
    /\ assoc "generated_text" d = Some (PStr text)
    /\ (forall answer,
          text = prompt_of (world_of (Some cairo) plain) (request 50) conn ++ answer ->
          email_body {| email_body := "Eat well." |} = strip answer
          /\ stripped answer (email_body {| email_body := "Eat well." |}))
    /\ ((forall answer,
           text <> prompt_of (world_of (Some cairo) plain) (request 50) conn ++ answer) ->
        email_body {| email_body := "Eat well." |} = text).
Proof.
  apply (ok_needs_generated_text (world_of (Some cairo) plain) (request 50) []
           {| email_body := "Eat well." |}).
  reflexivity.
Defined.

End PlanProofs.
